(** * EsperBERTo tutorial notebook: the external calls it issues

    The repository is one Jupyter notebook,
    [tutorial/Training a new Transformer Language Model from scratch.ipynb].
    Its code cells are straight-line Python and IPython shell escapes; every
    meaningful operation is a call into a third-party library or a shell tool.

    The notebook is embedded as a monadic program.  Shell tools and the
    third-party libraries ([tokenizers], [transformers], [torch]) are
    oracles: arbitrary functions of an abstract world.  The standard
    library operations whose result the notebook consumes itself
    ([pathlib]'s [Path], [Path.glob] and [str] of a path) are modelled.
    Every operation on the outside world is logged, with the id of the cell
    that issued it. *)

From Stdlib Require Import ZArith List String Ascii Bool Lia QArith.
Import ListNotations.
Open Scope string_scope.
Open Scope list_scope.
Open Scope Z_scope.

Set Implicit Arguments.
Set Warnings "-register-all".

(** ** Python values *)

(** A float literal is kept as the decimal written in the source:
    [digits] scaled by [10 ^ - scale]. *)
Record decimal := Decimal { digits : Z; scale : nat }.

Definition decimal_value (d : decimal) : Q :=
  Qmake (digits d) (Pos.of_nat (10 ^ scale d)).

Inductive value :=
| VNone
| VBool (b : bool)
| VInt (z : Z)
| VFloat (d : decimal)
| VStr (s : string)
| VList (l : list value)
| VTuple (l : list value)
| VPath (parts : list string)   (* a relative [pathlib.Path], by components *)
| VObj (h : nat)                (* a library object, by identity *)
| VExc (cls : string).          (* an exception raised by the interpreter *)

(** Keyword arguments, in the order written at the call site. *)
Definition kwargs := list (string * value).

Fixpoint kw_lookup (k : string) (kw : kwargs) : option value :=
  match kw with
  | [] => None
  | (k', v) :: rest => if String.eqb k k' then Some v else kw_lookup k rest
  end.

(** What a callee with a default for [k] ends up using. *)
Definition kw_or_default (k : string) (kw : kwargs) (default : value) : value :=
  match kw_lookup k kw with
  | Some v => v
  | None => default
  end.

(** ** External operations and the log *)

Inductive op :=
| OImport (module : string) (names : list string)
    (* [import module] when [names] is empty, else [from module import names] *)
| OCall (callee : string) (args : list value) (kw : kwargs)
| OMethod (self : value) (name : string) (args : list value) (kw : kwargs)
| OGetAttr (self : value) (name : string)
| OSetAttr (self : value) (name : string) (v : value).

Inductive outcome (A : Type) :=
| Ok (a : A)
| Raise (e : value).

Arguments Ok {A} a.
Arguments Raise {A} e.

Inductive event :=
| EvShell (cell : string) (cmd : string) (status : Z)
| EvLib (cell : string) (o : op) (r : outcome value).

Definition ev_cell (e : event) : string :=
  match e with
  | EvShell c _ _ => c
  | EvLib c _ _ => c
  end.

Definition ev_self (e : event) : value :=
  match e with
  | EvLib _ (OMethod self _ _ _) _ => self
  | _ => VNone
  end.

Definition ev_args (e : event) : list value :=
  match e with
  | EvLib _ (OCall _ args _) _ => args
  | EvLib _ (OMethod _ _ args _) _ => args
  | _ => []
  end.

Definition ev_kwargs (e : event) : kwargs :=
  match e with
  | EvLib _ (OCall _ _ kw) _ => kw
  | EvLib _ (OMethod _ _ _ kw) _ => kw
  | _ => []
  end.

(** The exception an operation raised, if it raised. *)
Definition ev_raised (e : event) : option value :=
  match e with
  | EvLib _ _ (Raise x) => Some x
  | _ => None
  end.

Definition in_cellb (id : string) (e : event) : bool :=
  String.eqb (ev_cell e) id.

(** [callee(...)] *)
Definition is_call (callee : string) (e : event) : bool :=
  match e with
  | EvLib _ (OCall f _ _) _ => String.eqb f callee
  | _ => false
  end.

(** [obj.name(...)] *)
Definition is_method (name : string) (e : event) : bool :=
  match e with
  | EvLib _ (OMethod _ n _ _) _ => String.eqb n name
  | _ => false
  end.


(** [v] is what a call of [callee] with these arguments and keywords, found
    in the log, returned. *)
Definition returned_by (l : list event) (callee : string) (args : list value)
    (kw : kwargs) (v : value) : Prop :=
  exists c, In (EvLib c (OCall callee args kw) (Ok v)) l.

Definition last_event (l : list event) : option event :=
  match l with
  | [] => None
  | e :: rest => Some (last rest e)
  end.

(** ** pathlib: matching a relative glob pattern

    [Path.glob] splits the pattern at [/]; a component [**] stands for this
    directory and all its subdirectories, any other component is matched
    against one name with [fnmatch] ([*] any run of characters, [?] one
    character).  Hidden names are not special.  Bracket expressions are not
    modelled: the notebook's only pattern has none. *)
Module Pathlib.

Definition path := list string.

Fixpoint fnmatch (pat : list ascii) : list ascii -> bool :=
  match pat with
  | [] => fun s => match s with [] => true | _ => false end
  | c :: rest =>
      if Ascii.eqb c "*" then
        fix star (s : list ascii) : bool :=
          fnmatch rest s || match s with [] => false | _ :: s' => star s' end
      else if Ascii.eqb c "?" then
        fun s => match s with [] => false | _ :: s' => fnmatch rest s' end
      else
        fun s => match s with
                 | [] => false
                 | d :: s' => Ascii.eqb c d && fnmatch rest s'
                 end
  end.

Definition name_matches (pat name : string) : bool :=
  fnmatch (list_ascii_of_string pat) (list_ascii_of_string name).

Fixpoint match_parts (pat : list string) : path -> bool :=
  match pat with
  | [] => fun p => match p with [] => true | _ => false end
  | q :: rest =>
      if String.eqb q "**" then
        fix skip (p : path) : bool :=
          match_parts rest p || match p with [] => false | _ :: p' => skip p' end
      else
        fun p => match p with
                 | [] => false
                 | n :: p' => name_matches q n && match_parts rest p'
                 end
  end.

(** Splitting at [/]. *)
Fixpoint split_slash (acc : string) (s : string) : list string :=
  match s with
  | EmptyString => [acc]
  | String c s' =>
      if Ascii.eqb c "/" then acc :: split_slash "" s'
      else split_slash (acc ++ String c "")%string s'
  end.

(** The components of a path string; empty and [.] components vanish. *)
Definition parts_of (s : string) : path :=
  filter (fun n => negb (String.eqb n "" || String.eqb n ".")) (split_slash "" s).

Fixpoint strip_prefix (d p : path) : option path :=
  match d, p with
  | [], _ => Some p
  | x :: d', y :: p' => if String.eqb x y then strip_prefix d' p' else None
  | _ :: _, [] => None
  end.

(** [entries] lists every file and directory below the working directory,
    each by its components.  The result keeps their order. *)
Definition glob (entries : list path) (dir : path) (pattern : string) : list path :=
  filter (fun p =>
            match strip_prefix dir p with
            | Some rel => match_parts (parts_of pattern) rel
            | None => false
            end) entries.

Arguments glob : simpl never.

(** [str] of a path. *)
Definition to_string (p : path) : string :=
  match p with
  | [] => "."
  | n :: rest => fold_left (fun acc m => acc ++ "/" ++ m)%string rest n
  end.

Definition has_suffix (suffix name : string) : Prop :=
  exists stem, name = (stem ++ suffix)%string.

(** A [.txt] file: an entry whose last component ends in [.txt]. *)
Definition is_txt (p : path) : Prop :=
  exists dir name, p = dir ++ [name] /\ has_suffix ".txt" name.

End Pathlib.

(** ** The notebook monad

    A computation reads the id of the cell it belongs to, passes the world
    along, logs the operations it performs, records the names it assigns and
    ends with a value or with a raised exception.  The notebook has no [try]
    of its own; the one construct that catches is the [%%time] magic. *)

(** Names assigned in the user namespace, in the order of the assignments. *)
Definition bindings := list (string * value).

(** What a name is bound to: its last assignment. *)
Definition bound_to (name : string) (names : bindings) : option value :=
  kw_lookup name (rev names).

Definition M (World A : Type) : Type :=
  string -> World -> outcome A * World * list event * bindings.

Definition ret {World A} (a : A) : M World A :=
  fun _ w => (Ok a, w, [], []).

Definition bind {World A B} (m : M World A) (k : A -> M World B) : M World B :=
  fun c w =>
    match m c w with
    | (Ok a, w1, t1, b1) =>
        match k a c w1 with
        | (r, w2, t2, b2) => (r, w2, t1 ++ t2, b1 ++ b2)
        end
    | (Raise e, w1, t1, b1) => (Raise e, w1, t1, b1)
    end.

Definition raise {World A} (e : value) : M World A :=
  fun _ w => (Raise e, w, [], []).

Definition in_cell {World A} (id : string) (m : M World A) : M World A :=
  fun _ w => m id w.

(** [name = v] in a cell whose names are looked at after an exception. *)
Definition assign {World} (name : string) (v : value) : M World unit :=
  fun _ w => (Ok tt, w, [], [(name, v)]).

(** Reading a global that an earlier [%%time] cell may have left unbound:
    [names] is what that cell bound. *)
Definition load_name {World} (name : string) (names : bindings) : M World value :=
  match bound_to name names with
  | Some v => ret v
  | None => raise (VExc "NameError")
  end.

(** [%%time], as IPython 7 and later implement it: the magic executes the
    cell body in the user namespace inside
    [try: ... except: self.shell.showtraceback(); return].  An exception of
    the body is caught there: the traceback is shown, the cell ends normally
    and the next cell runs.  The names the body assigned before the
    exception stay bound; the cell yields the names it assigned. *)
Definition magic_time {World A} (body : M World A) : M World bindings :=
  fun c w =>
    match body c w with
    | (_, w1, t, b) => (Ok b, w1, t, b)
    end.

(** [for x in v]: lists and tuples are iterated; anything else here is a
    [TypeError]. *)
Definition iterate {World} (v : value) : M World (list value) :=
  match v with
  | VList l => ret l
  | VTuple l => ret l
  | _ => raise (VExc "TypeError")
  end.

Declare Scope nb_scope.
Delimit Scope nb_scope with nb.
Notation "x <- m ;; k" := (bind m (fun x => k))
  (at level 61, m at next level, right associativity) : nb_scope.
Notation "m ;; k" := (bind m (fun _ => k))
  (at level 61, right associativity) : nb_scope.

Fixpoint mapM {World A B} (f : A -> M World B) (l : list A) : M World (list B) :=
  match l with
  | [] => ret []
  | x :: rest => (y <- f x;; ys <- mapM f rest;; ret (y :: ys))%nb
  end.

Definition res {World A} (x : outcome A * World * list event * bindings) :
    outcome A :=
  fst (fst (fst x)).

Definition final {World A} (x : outcome A * World * list event * bindings) : World :=
  snd (fst (fst x)).

Definition log {World A} (x : outcome A * World * list event * bindings) :
    list event :=
  snd (fst x).

Definition assigned {World A} (x : outcome A * World * list event * bindings) :
    bindings :=
  snd x.

Section Notebook.

Variable World : Type.

(** The entries below the working directory, in the order the file system
    lists them. *)
Variable fs : World -> list Pathlib.path.

(** A shell tool: its exit status and what it did to the world. *)
Variable shell : string -> World -> Z * World.

(** A third-party library operation. *)
Variable lib : op -> World -> outcome value * World.

(** [Path.glob] reads the file system and is answered by the model;
    everything else is answered by the library oracle. *)
Definition handle (o : op) (w : World) : outcome value * World :=
  match o with
  | OMethod (VPath d) name [VStr pat] [] =>
      if String.eqb name "glob"
      then (Ok (VList (map VPath (Pathlib.glob (fs w) d pat))), w)
      else lib o w
  | _ => lib o w
  end.

Definition perform (o : op) : M World value :=
  fun c w =>
    match handle o w with
    | (r, w') => (r, w', [EvLib c o r], [])
    end.

(** [!cmd]: IPython runs the command through the system shell, shows its
    output and stores the exit status in [_exit_code].  It raises nothing,
    whatever the status; the next statement runs. *)
Definition sh (cmd : string) : M World unit :=
  fun c w =>
    match shell cmd w with
    | (status, w') => (Ok tt, w', [EvShell c cmd status], [])
    end.

Definition import_ (module : string) : M World value :=
  perform (OImport module []).

Definition from_import (module : string) (names : list string) : M World value :=
  perform (OImport module names).

Definition call (callee : string) (args : list value) (kw : kwargs) : M World value :=
  perform (OCall callee args kw).

Definition method (self : value) (name : string) (args : list value)
    (kw : kwargs) : M World value :=
  perform (OMethod self name args kw).

Definition getattr (self : value) (name : string) : M World value :=
  perform (OGetAttr self name).

Definition setattr (self : value) (name : string) (v : value) : M World value :=
  perform (OSetAttr self name v).

(** [Path(s)] builds a path value; nothing outside is touched. *)
Definition py_Path (s : string) : value := VPath (Pathlib.parts_of s).

(** [str(x)]: computed for a path and for a string; the [__str__] of any
    other value is the library's. *)
Definition py_str (x : value) : M World value :=
  match x with
  | VPath p => ret (VStr (Pathlib.to_string p))
  | VStr _ => ret x
  | _ => call "str" [x] []
  end.

Local Open Scope nb_scope.

(** ** The cells, in notebook order

    Each code cell is a definition named after the cell's id.  A cell takes
    the notebook globals it reads and returns the ones it binds; a [%%time]
    cell returns the names it assigned, which may be fewer than it would
    have without an exception, and the cell that reads one of them looks it
    up.  The run starts in a fresh kernel: no name is bound beforehand.
    What a cell displays (the value of its last expression) is not
    modelled. *)

(** ### 1. Find a dataset *)
Definition cell_184ba191 : M World unit :=
  in_cell "184ba191"
    (sh "wget -c https://cdn-datasets.huggingface.co/EsperBERTo/data/oscar.eo.txt").

(** ### 2. Train a tokenizer *)
Definition cell_666c9aa6 : M World unit :=
  in_cell "666c9aa6"
    ((* We won't need TensorFlow here *)
     sh "pip uninstall -y tensorflow";;
     (* Install `transformers` from master *)
     sh "pip install git+https://github.com/huggingface/transformers";;
     sh "pip list | grep -E 'transformers|tokenizers'").

(** [paths = [str(x) for x in Path(".").glob("**/*.txt")]] *)
Definition stmt_paths : M World (list value) :=
  found <- method (py_Path ".") "glob" [VStr "**/*.txt"] [];;
  xs <- iterate found;;
  mapM py_str xs.

(** [tokenizer.train(files=paths, vocab_size=52_000, min_frequency=2,
    special_tokens=[...])] *)
Definition stmt_train (tokenizer : value) (paths : list value) : M World value :=
  method tokenizer "train" []
    [("files", VList paths);
     ("vocab_size", VInt 52000);
     ("min_frequency", VInt 2);
     ("special_tokens",
      VList [VStr "<s>"; VStr "<pad>"; VStr "</s>"; VStr "<unk>"; VStr "<mask>"])].

(** Source lines 94 to 106: from the glob to the training call. *)
Definition tokenizer_training : M World value :=
  paths <- stmt_paths;;
  assign "paths" (VList paths);;
  (* Initialize a tokenizer *)
  tokenizer <- call "ByteLevelBPETokenizer" [] [];;
  assign "tokenizer" tokenizer;;
  (* Customize training *)
  stmt_train tokenizer paths;;
  ret tokenizer.

Definition cell_762d951b : M World bindings :=
  in_cell "762d951b"
    (magic_time
       (from_import "pathlib" ["Path"];;
        from_import "tokenizers" ["ByteLevelBPETokenizer"];;
        tokenizer_training)).

(** [names]: what cell 762d951b bound.  The shell escape runs before
    [tokenizer] is looked up. *)
Definition cell_c924c50f (names : bindings) : M World unit :=
  in_cell "c924c50f"
    (sh "mkdir EsperBERTo";;
     tokenizer <- load_name "tokenizer" names;;
     method tokenizer "save_model" [VStr "EsperBERTo"] [];;
     ret tt).

Definition cell_edb74619 : M World value :=
  in_cell "edb74619"
    (from_import "tokenizers.implementations" ["ByteLevelBPETokenizer"];;
     from_import "tokenizers.processors" ["BertProcessing"];;
     call "ByteLevelBPETokenizer"
       [VStr "./EsperBERTo/vocab.json"; VStr "./EsperBERTo/merges.txt"] []).

(** The right-hand side is evaluated first, its arguments left to right;
    then the target [tokenizer._tokenizer] is read and its attribute set. *)
Definition cell_ae4e9e92 (tokenizer : value) : M World unit :=
  in_cell "ae4e9e92"
    (id_sep <- method tokenizer "token_to_id" [VStr "</s>"] [];;
     id_cls <- method tokenizer "token_to_id" [VStr "<s>"] [];;
     processor <- call "BertProcessing"
                    [VTuple [VStr "</s>"; id_sep]; VTuple [VStr "<s>"; id_cls]] [];;
     inner <- getattr tokenizer "_tokenizer";;
     setattr inner "post_processor" processor;;
     method tokenizer "enable_truncation" [] [("max_length", VInt 512)];;
     ret tt).

Definition cell_86f97971 (tokenizer : value) : M World unit :=
  in_cell "86f97971"
    (method tokenizer "encode" [VStr "Mi estas Julien."] [];;
     ret tt).

(** [tokenizer.encode(sequence).tokens] *)
Definition encode_tokens (tokenizer : value) (sequence : string) : M World value :=
  encoding <- method tokenizer "encode" [VStr sequence] [];;
  getattr encoding "tokens".

Definition cell_b122da87 (tokenizer : value) : M World unit :=
  in_cell "b122da87"
    (encode_tokens tokenizer "Mi estas Julien.";;
     ret tt).

(** ### 3. Train a language model from scratch *)
Definition cell_09f011e4 : M World unit :=
  in_cell "09f011e4"
    ((* Check that PyTorch sees it *)
     import_ "torch";;
     call "torch.cuda.is_available" [] [];;
     ret tt).

Definition cell_52a95d1d : M World value :=
  in_cell "52a95d1d"
    (from_import "transformers" ["RobertaConfig"];;
     call "RobertaConfig" []
       [("vocab_size", VInt 52000);
        ("max_position_embeddings", VInt 514);
        ("num_attention_heads", VInt 12);
        ("num_hidden_layers", VInt 6);
        ("type_vocab_size", VInt 1)]).

Definition cell_7a1d4de5 (config : value) : M World value :=
  in_cell "7a1d4de5"
    (from_import "transformers" ["RobertaForMaskedLM"];;
     call "RobertaForMaskedLM" [] [("config", config)]).

Definition cell_99d289ba (model : value) : M World unit :=
  in_cell "99d289ba"
    (method model "num_parameters" [] [];;
     (* => 84 million parameters *)
     ret tt).

Definition cell_58873f3e (tokenizer : value) : M World bindings :=
  in_cell "58873f3e"
    (magic_time
       (from_import "transformers" ["LineByLineTextDataset"];;
        dataset <- call "LineByLineTextDataset" []
                     [("tokenizer", tokenizer);
                      ("file_path", VStr "./oscar.eo.txt");
                      ("block_size", VInt 128)];;
        assign "dataset" dataset)).

Definition cell_0192ab9b (tokenizer : value) : M World value :=
  in_cell "0192ab9b"
    (from_import "transformers" ["DataCollatorForLanguageModeling"];;
     call "DataCollatorForLanguageModeling" []
       [("tokenizer", tokenizer);
        ("mlm", VBool true);
        ("mlm_probability", VFloat (Decimal 15 2))]).

(** ### Finally, we are all set to initialize our Trainer

    [names]: what cell 58873f3e bound.  The keyword values of
    [Trainer(...)] are evaluated before the call, [dataset] last. *)
Definition cell_de381787 (model data_collator : value) (names : bindings) :
    M World value :=
  in_cell "de381787"
    (from_import "transformers" ["Trainer"; "TrainingArguments"];;
     training_args <- call "TrainingArguments" []
                        [("output_dir", VStr "./EsperBERTo");
                         ("overwrite_output_dir", VBool true);
                         ("num_train_epochs", VInt 1);
                         ("per_gpu_train_batch_size", VInt 64);
                         ("save_steps", VInt 10000);
                         ("save_total_limit", VInt 2);
                         ("prediction_loss_only", VBool true)];;
     dataset <- load_name "dataset" names;;
     call "Trainer" []
       [("model", model);
        ("args", training_args);
        ("data_collator", data_collator);
        ("train_dataset", dataset)]).

Definition cell_107a6a6c (trainer : value) : M World bindings :=
  in_cell "107a6a6c"
    (magic_time
       (method trainer "train" [] [];;
        ret tt)).

Definition cell_2e6453e9 (trainer : value) : M World unit :=
  in_cell "2e6453e9"
    (method trainer "save_model" [VStr "./EsperBERTo"] [];;
     ret tt).

(** ### 4. Check that the LM actually trained *)
Definition cell_feec1cb8 : M World value :=
  in_cell "feec1cb8"
    (from_import "transformers" ["pipeline"];;
     call "pipeline" [VStr "fill-mask"]
       [("model", VStr "./EsperBERTo");
        ("tokenizer", VStr "./EsperBERTo")]).

(** Calling the pipeline object: [fill_mask(sentence)]. *)
Definition cell_c01b777c (fill_mask : value) : M World unit :=
  in_cell "c01b777c"
    ((* The sun <mask>. *)
     method fill_mask "__call__" [VStr "La suno <mask>."] [];;
     ret tt).

Definition cell_9b916992 (fill_mask : value) : M World unit :=
  in_cell "9b916992"
    (method fill_mask "__call__" [VStr "Jen la komenco de bela <mask>."] [];;
     (* This is the beginning of a beautiful <mask>. *)
     ret tt).

Definition cell_caa66234 : M World unit :=
  in_cell "caa66234" (ret tt).

(** Running every cell from top to bottom; an exception that leaves a cell
    stops the run. *)
Definition notebook : M World unit :=
  cell_184ba191;;
  cell_666c9aa6;;
  names <- cell_762d951b;;
  cell_c924c50f names;;
  tokenizer <- cell_edb74619;;
  cell_ae4e9e92 tokenizer;;
  cell_86f97971 tokenizer;;
  cell_b122da87 tokenizer;;
  cell_09f011e4;;
  config <- cell_52a95d1d;;
  model <- cell_7a1d4de5 config;;
  cell_99d289ba model;;
  names <- cell_58873f3e tokenizer;;
  data_collator <- cell_0192ab9b tokenizer;;
  trainer <- cell_de381787 model data_collator names;;
  cell_107a6a6c trainer;;
  cell_2e6453e9 trainer;;
  fill_mask <- cell_feec1cb8;;
  cell_c01b777c fill_mask;;
  cell_9b916992 fill_mask;;
  cell_caa66234.

Definition run_all (w : World) : outcome unit * World * list event * bindings :=
  notebook "" w.

End Notebook.


(** ** What the claims read off a log *)

(** The notebook's two [train] calls, told apart by the cell they are in. *)
Definition is_tokenizer_train (e : event) : bool :=
  in_cellb "762d951b" e && is_method "train" e.

Definition is_trainer_train (e : event) : bool :=
  in_cellb "107a6a6c" e && is_method "train" e.

(** Calling the pipeline object. *)
Definition is_fill_mask (e : event) : bool := is_method "__call__" e.

Inductive step :=
| Download
| TokenizerTraining
| ModelConstruction
| Training
| Inference.








Definition prefix_of {A} (a b : list A) : Prop := exists rest, a ++ rest = b.

(** The arguments of each call of the pipeline object, in log order. *)
Definition fill_mask_inputs (l : list event) : list (list value) :=
  flat_map (fun e => if is_fill_mask e then [ev_args e] else []) l.

(** How often [sub] occurs in [s]. *)
Fixpoint count_sub (sub s : string) : nat :=
  match s with
  | EmptyString => 0%nat
  | String _ s' =>
      ((if String.prefix sub s then 1 else 0) + count_sub sub s')%nat
  end.

(** Every exception raised by an operation of the log, in log order. *)
Definition raised (l : list event) : list value :=
  flat_map (fun e => match ev_raised e with Some x => [x] | None => [] end) l.

(** The cells that begin with [%%time]. *)
Definition timed_cells : list string := ["762d951b"; "58873f3e"; "107a6a6c"].

Definition timed (c : string) : bool := existsb (String.eqb c) timed_cells.

Definition is_nil {A} (l : list A) : bool :=
  match l with
  | [] => true
  | _ :: _ => false
  end.

(** Every exception of [l] is the last operation of its cell; raised
    outside a [%%time] cell it is the last operation of [l], raised in a
    [%%time] cell it is not. *)
Fixpoint ends_cells (l : list event) : bool :=
  match l with
  | [] => true
  | e :: rest =>
      match ev_raised e with
      | Some _ =>
          forallb (fun e' => negb (String.eqb (ev_cell e') (ev_cell e))) rest
          && (if timed (ev_cell e) then negb (is_nil rest) else is_nil rest)
      | None => true
      end && ends_cells rest
  end.

(** Some exception of [l] was raised in a [%%time] cell. *)
Definition caught_by_time (l : list event) : bool :=
  existsb (fun e => match ev_raised e with
                    | Some _ => timed (ev_cell e)
                    | None => false
                    end) l.

(** ** The tokenizers library, as far as cell ae4e9e92 configures it

    This is library behaviour, not repository code.  A
    [ByteLevelBPETokenizer] wraps a [Tokenizer], its attribute [_tokenizer],
    which holds the vocabulary, the trained model, an optional post-processor
    and an optional truncation length.  [BertProcessing(sep, cls)] puts
    [cls] before and [sep] after a single sequence.  With truncation on,
    [encode] first cuts the sequence to the maximal length less the number
    of tokens the post-processor adds, then post-processes.  The trained
    model itself ([bpe]) is arbitrary. *)
Module Tokenizers.

Definition token := (string * Z)%type.

Record core := Core {
  vocab : list token;
  bpe : string -> list token;
  post_processor : option nat;
  truncation : option Z
}.

Inductive object :=
| OWrapper (inner : nat)              (* a [ByteLevelBPETokenizer] and its [_tokenizer] *)
| OCore (t : core)                    (* a [Tokenizer] *)
| OBertProcessing (sep cls : token)   (* a [BertProcessing] *)
| OEncoding (tokens : list token).    (* what [encode] returns *)

(** Objects are identified by their position in the heap. *)
Definition heap := list object.

Fixpoint set_nth (n : nat) (o : object) (h : heap) : heap :=
  match h, n with
  | [], _ => []
  | _ :: rest, O => o :: rest
  | x :: rest, S n' => x :: set_nth n' o rest
  end.

Fixpoint token_to_id (v : list token) (t : string) : value :=
  match v with
  | [] => VNone
  | (t', i) :: rest => if String.eqb t t' then VInt i else token_to_id rest t
  end.

(** The tokenizer behind a wrapper object. *)
Definition core_of (h : heap) (v : value) : option (nat * core) :=
  match v with
  | VObj a =>
      match nth_error h a with
      | Some (OWrapper i) =>
          match nth_error h i with
          | Some (OCore t) => Some (i, t)
          | _ => None
          end
      | _ => None
      end
  | _ => None
  end.

Definition special_tokens (h : heap) (t : core) : option (token * token) :=
  match post_processor t with
  | Some p =>
      match nth_error h p with
      | Some (OBertProcessing sep cls) => Some (sep, cls)
      | _ => None
      end
  | None => None
  end.

Definition truncate (limit : option Z) (added : Z) (l : list token) : list token :=
  match limit with
  | Some n => firstn (Z.to_nat (n - added)) l
  | None => l
  end.

(** [encode(sequence)], special tokens included. *)
Definition encode (h : heap) (t : core) (sequence : string) : list token :=
  match special_tokens h t with
  | Some (sep, cls) => cls :: truncate (truncation t) 2 (bpe t sequence) ++ [sep]
  | None => truncate (truncation t) 0 (bpe t sequence)
  end.

Definition type_error {A} (h : A) : outcome value * A := (Raise (VExc "TypeError"), h).
Definition attribute_error {A} (h : A) : outcome value * A :=
  (Raise (VExc "AttributeError"), h).

Definition lib (o : op) (h : heap) : outcome value * heap :=
  match o with
  | OCall callee args kw =>
      if String.eqb callee "BertProcessing" then
        match args, kw with
        | [VTuple [VStr s; VInt i]; VTuple [VStr c; VInt j]], [] =>
            (Ok (VObj (List.length h)), h ++ [OBertProcessing (s, i) (c, j)])
        | _, _ => type_error h
        end
      else attribute_error h
  | OMethod self name args kw =>
      match core_of h self with
      | Some (i, t) =>
          if String.eqb name "token_to_id" then
            match args, kw with
            | [VStr tok], [] => (Ok (token_to_id (vocab t) tok), h)
            | _, _ => type_error h
            end
          else if String.eqb name "enable_truncation" then
            match args, kw_lookup "max_length" kw with
            | [], Some (VInt n) | [VInt n], None =>
                (Ok VNone,
                 set_nth i (OCore (Core (vocab t) (bpe t) (post_processor t) (Some n))) h)
            | _, _ => type_error h
            end
          else if String.eqb name "encode" then
            match args, kw with
            | [VStr s], [] => (Ok (VObj (List.length h)), h ++ [OEncoding (encode h t s)])
            | _, _ => type_error h
            end
          else attribute_error h
      | None => attribute_error h
      end
  | OGetAttr (VObj a) name =>
      match nth_error h a with
      | Some (OWrapper i) =>
          if String.eqb name "_tokenizer" then (Ok (VObj i), h) else attribute_error h
      | Some (OEncoding toks) =>
          if String.eqb name "tokens"
          then (Ok (VList (map (fun t => VStr (fst t)) toks)), h)
          else attribute_error h
      | _ => attribute_error h
      end
  | OSetAttr (VObj a) name (VObj p) =>
      match nth_error h a, nth_error h p with
      | Some (OCore t), Some (OBertProcessing _ _) =>
          if String.eqb name "post_processor"
          then (Ok VNone, set_nth a (OCore (Core (vocab t) (bpe t) (Some p) (truncation t))) h)
          else attribute_error h
      | _, _ => attribute_error h
      end
  | _ => attribute_error h
  end.

(** The state cell ae4e9e92 is after: the tokenizer behind [tokenizer]
    post-processes with [BertProcessing(("</s>", _), ("<s>", _))] and
    truncates to 512. *)
Definition configured (h : heap) (tokenizer : value) : Prop :=
  exists i t p sep_id cls_id,
    core_of h tokenizer = Some (i, t) /\
    post_processor t = Some p /\
    nth_error h p = Some (OBertProcessing ("</s>", sep_id) ("<s>", cls_id)) /\
    truncation t = Some 512.

(** The model has no files. *)
Definition fs (h : heap) : list Pathlib.path := [].

End Tokenizers.

(** ** The Trainer's checkpoints, as far as [TrainingArguments] sets them

    This is library behaviour, not repository code.  After every
    optimisation step the trainer saves [checkpoint-<step>] under the output
    directory when [save_steps] is positive and divides the step number;
    after every save it sorts the checkpoints found there by number and
    deletes the oldest ones beyond [save_total_limit].  A checkpoint of the
    same number that is already there is written over. *)
Module Trainer.

Record arguments := Arguments {
  output_dir : string;
  overwrite_output_dir : bool;
  save_steps : Z;
  save_total_limit : Z
}.


(** The output directory: the numbers of the checkpoints in it, and the
    steps at which this training wrote one, in order. *)
Record directory := Directory {
  checkpoints : list Z;
  written : list Z
}.

Definition saves_at (a : arguments) (step : Z) : bool :=
  (0 <? save_steps a) && (step mod save_steps a =? 0).

Fixpoint insert (x : Z) (l : list Z) : list Z :=
  match l with
  | [] => [x]
  | y :: rest => if x <=? y then x :: l else y :: insert x rest
  end.

Definition sort (l : list Z) : list Z := fold_right insert [] l.

Definition holds (kept : list Z) (step : Z) : bool := existsb (Z.eqb step) kept.

(** Writing [checkpoint-<step>]: one of that number is written over. *)
Definition save (step : Z) (kept : list Z) : list Z :=
  if holds kept step then kept else step :: kept.

(** The checkpoints left by a rotation, oldest first. *)
Definition rotate (a : arguments) (kept : list Z) : list Z :=
  if save_total_limit a <=? 0 then kept
  else skipn (List.length kept - Z.to_nat (save_total_limit a)) (sort kept).

Definition after_step (a : arguments) (d : directory) (step : Z) : directory :=
  if saves_at a step
  then Directory (rotate a (save step (checkpoints d))) (written d ++ [step])
  else d.

(** The output directory after [n] more steps. *)
Fixpoint train (a : arguments) (d : directory) (step : Z) (n : nat) : directory :=
  match n with
  | O => d
  | S n' => train a (after_step a d (step + 1)) (step + 1) n'
  end.

End Trainer.

(** ** A small world to run the notebook in

    The working directory is that of a second run: the first one left its
    files.  [wget] succeeds and leaves the corpus; [mkdir] of a directory
    that is there exits with status 1, as the tool does; every other shell
    command exits with [0].  A library operation picked out by [fails]
    raises; every other one succeeds and returns a fresh object, except that
    [token_to_id] answers from a five-entry vocabulary. *)
Module Demo.

Record world := { next : nat; entries : list Pathlib.path }.

Definition add_entry (p : Pathlib.path) (w : world) : world :=
  {| next := next w; entries := entries w ++ [p] |}.

Definition has_dir (name : string) (w : world) : bool :=
  existsb (fun p => match p with
                    | [n] => String.eqb n name
                    | _ => false
                    end) (entries w).

Definition shell (cmd : string) (w : world) : Z * world :=
  if String.prefix "wget " cmd then (0, add_entry ["oscar.eo.txt"] w)
  else if String.eqb cmd "mkdir EsperBERTo" then
    if has_dir "EsperBERTo" w then (1, w) else (0, add_entry ["EsperBERTo"] w)
  else (0, w).

Definition vocab : list (string * Z) :=
  [("<s>", 0); ("<pad>", 1); ("</s>", 2); ("<unk>", 3); ("<mask>", 4)].

Definition fresh (w : world) : outcome value * world :=
  (Ok (VObj (next w)), {| next := S (next w); entries := entries w |}).

Definition lib (fails : op -> bool) (o : op) (w : world) : outcome value * world :=
  if fails o then (Raise (VExc "RuntimeError"), w)
  else
    match o with
    | OMethod _ name [VStr t] [] =>
        if String.eqb name "token_to_id"
        then (Ok (Tokenizers.token_to_id vocab t), w)
        else fresh w
    | _ => fresh w
    end.

Definition never (o : op) : bool := false.

(** The calls and methods of these names raise. *)
Definition failing (names : list string) (o : op) : bool :=
  match o with
  | OCall callee _ _ => existsb (String.eqb callee) names
  | OMethod _ name _ _ => existsb (String.eqb name) names
  | _ => false
  end.

(** The dataset cannot be built. *)
Definition no_dataset (o : op) : bool :=
  match o with
  | OCall callee _ _ => String.eqb callee "LineByLineTextDataset"
  | _ => false
  end.

Definition start : world :=
  {| next := 0;
     entries := [["EsperBERTo"]; ["EsperBERTo"; "merges.txt"];
                 ["EsperBERTo"; "vocab.json"]; ["notes"]; ["notes"; "README.md"]] |}.

(** The same directory once the corpus is there. *)
Definition downloaded : world := add_entry ["oscar.eo.txt"] start.

(** One character per token, numbered by its code. *)
Fixpoint chars (s : string) : list Tokenizers.token :=
  match s with
  | EmptyString => []
  | String c s' => (String c "", Z.of_nat (nat_of_ascii c)) :: chars s'
  end.

(** A reloaded tokenizer: object 0 wraps object 1. *)
Definition reloaded : Tokenizers.heap :=
  [Tokenizers.OWrapper 1;
   Tokenizers.OCore (Tokenizers.Core vocab chars None None)].

End Demo.

Abbreviation demo_run fails :=
  (run_all Demo.entries Demo.shell (Demo.lib fails) Demo.start).

(** ** Program logic

    [wp m c w P]: running [m] in cell [c] from world [w] ends with a log,
    an outcome, a world and assigned names that satisfy [P].  [emits Q m c]: every event
    [m] logs in cell [c] satisfies [Q]. *)
Definition wp {World A} (m : M World A) (c : string) (w : World)
    (P : list event -> outcome A -> World -> bindings -> Prop) : Prop :=
  match m c w with
  | (r, w', t, b) => P t r w' b
  end.

(** The same for the body of a [%%time] cell, whose outcome is dropped. *)
Definition swallowed {World A} (m : M World A) (c : string) (w : World)
    (Q : list event -> World -> bindings -> Prop) : Prop :=
  match m c w with
  | (_, w', t, b) => Q t w' b
  end.

Definition emits {World A} (Q : event -> Prop) (m : M World A) (c : string) : Prop :=
  forall w, Forall Q (log (m c w)).

(** ** Names for what the claims mention *)

Definition train_keywords (files : value) : kwargs :=
  [("files", files);
   ("vocab_size", VInt 52000);
   ("min_frequency", VInt 2);
   ("special_tokens",
    VList [VStr "<s>"; VStr "<pad>"; VStr "</s>"; VStr "<unk>"; VStr "<mask>"])].

Definition config_event : event :=
  EvLib "52a95d1d"
    (OCall "RobertaConfig" []
       [("vocab_size", VInt 52000);
        ("max_position_embeddings", VInt 514);
        ("num_attention_heads", VInt 12);
        ("num_hidden_layers", VInt 6);
        ("type_vocab_size", VInt 1)])
    (Ok (VObj 18)).

(** The trainer [trainer] was built by [Trainer(...)] from the training
    arguments and the data collator that carry the claimed parameters. *)
Definition training_configured (l : list event) (trainer : value) : Prop :=
  exists kw_trainer args collator kw_args kw_collator,
    returned_by l "Trainer" [] kw_trainer trainer /\
    kw_lookup "args" kw_trainer = Some args /\
    kw_lookup "data_collator" kw_trainer = Some collator /\
    returned_by l "TrainingArguments" [] kw_args args /\
    kw_lookup "num_train_epochs" kw_args = Some (VInt 1) /\
    kw_lookup "per_gpu_train_batch_size" kw_args = Some (VInt 64) /\
    returned_by l "DataCollatorForLanguageModeling" [] kw_collator collator /\
    kw_lookup "mlm" kw_collator = Some (VBool true) /\
    kw_lookup "mlm_probability" kw_collator = Some (VFloat (Decimal 15 2)).

Definition sample_sentences : list string :=
  ["La suno <mask>."; "Jen la komenco de bela <mask>."].

Definition mkdir_event (status : Z) : event :=
  EvShell "c924c50f" "mkdir EsperBERTo" status.

(** What [paths] holds when the glob ran in world [w]. *)
Definition training_files {World} (fs : World -> list Pathlib.path) (w : World) :
    list value :=
  map (fun p => VStr (Pathlib.to_string p)) (Pathlib.glob (fs w) [] "**/*.txt").

Definition is_glob (o : op) : bool :=
  match o with
  | OMethod _ name _ _ => String.eqb name "glob"
  | _ => false
  end.

(** One character repeated. *)
Fixpoint replicate (n : nat) (c : ascii) : string :=
  match n with
  | O => EmptyString
  | S n' => String c (replicate n' c)
  end.

(** What the notebook's [TrainingArguments(...)] say about checkpoints. *)
Definition notebook_arguments : Trainer.arguments :=
  Trainer.Arguments "./EsperBERTo" true 10000 2.



(** ** Further readings of a log *)

Definition ev_cmd (e : event) : option string :=
  match e with
  | EvShell _ cmd _ => Some cmd
  | EvLib _ _ _ => None
  end.

(** The shell commands of a log, in log order. *)
Definition shell_commands (l : list event) : list string :=
  flat_map (fun e => match ev_cmd e with Some cmd => [cmd] | None => [] end) l.

(** The five shell escapes of the notebook, in source order. *)
Definition notebook_shell : list string :=
  ["wget -c https://cdn-datasets.huggingface.co/EsperBERTo/data/oscar.eo.txt";
   "pip uninstall -y tensorflow";
   "pip install git+https://github.com/huggingface/transformers";
   "pip list | grep -E 'transformers|tokenizers'";
   "mkdir EsperBERTo"].

(** The code cells that perform an operation, top to bottom; the last
    cell of the notebook is empty. *)
Definition code_cells : list string :=
  ["184ba191"; "666c9aa6"; "762d951b"; "c924c50f"; "edb74619"; "ae4e9e92";
   "86f97971"; "b122da87"; "09f011e4"; "52a95d1d"; "7a1d4de5"; "99d289ba";
   "58873f3e"; "0192ab9b"; "de381787"; "107a6a6c"; "2e6453e9"; "feec1cb8";
   "c01b777c"; "9b916992"].

(** Consecutive equal ids count once. *)
Fixpoint squash_ids (l : list string) : list string :=
  match l with
  | [] => []
  | a :: rest =>
      match rest with
      | b :: _ => if String.eqb a b then squash_ids rest else a :: squash_ids rest
      | [] => [a]
      end
  end.

(** The cells a log goes through. *)
Definition cells_run (l : list event) : list string := squash_ids (map ev_cell l).

(** What tells one operation of the notebook from another: its cell, what
    it runs, imports, calls, reads or sets, and the string literals among
    its arguments. *)
Definition ev_name (e : event) : string :=
  match e with
  | EvShell _ cmd _ => cmd
  | EvLib _ (OImport module _) _ => module
  | EvLib _ (OCall callee _ _) _ => callee
  | EvLib _ (OMethod _ name _ _) _ => name
  | EvLib _ (OGetAttr _ name) _ => name
  | EvLib _ (OSetAttr _ name _) _ => name
  end.

Definition literals (l : list value) : list string :=
  flat_map (fun v => match v with VStr s => [s] | _ => [] end) l.

Definition signature (e : event) : string * string * list string :=
  (ev_cell e, ev_name e, literals (ev_args e)).

Fixpoint strings_eqb (a b : list string) : bool :=
  match a, b with
  | [], [] => true
  | x :: a', y :: b' => String.eqb x y && strings_eqb a' b'
  | _, _ => false
  end.

Definition signature_eqb (a b : string * string * list string) : bool :=
  String.eqb (fst (fst a)) (fst (fst b))
  && String.eqb (snd (fst a)) (snd (fst b))
  && strings_eqb (snd a) (snd b).

(** No two entries are the same. *)
Fixpoint distinct (l : list (string * string * list string)) : bool :=
  match l with
  | [] => true
  | x :: rest => negb (existsb (signature_eqb x) rest) && distinct rest
  end.

(** The names a successful import binds. *)
Definition import_binds (e : event) : list string :=
  match e with
  | EvLib _ (OImport module names) (Ok _) =>
      match names with
      | [] => [module]
      | _ => names
      end
  | _ => []
  end.

(** A dotted name up to its first dot. *)
Fixpoint root_name (s : string) : string :=
  match s with
  | EmptyString => EmptyString
  | String c s' => if Ascii.eqb c "." then EmptyString else String c (root_name s')
  end.

(** The imported name an operation goes through: the callee of a call, and
    [Path] for an operation on a path. *)
Definition needs (e : event) : option string :=
  match e with
  | EvLib _ (OCall callee _ _) _ => Some (root_name callee)
  | EvLib _ (OMethod (VPath _) _ _ _) _ => Some "Path"
  | _ => None
  end.

(** The same, without looking at the receiver of a method. *)
Definition needs_at_most (e : event) : option string :=
  match e with
  | EvLib _ (OCall callee _ _) _ => Some (root_name callee)
  | EvLib _ (OMethod _ _ _ _) _ => Some "Path"
  | _ => None
  end.

Definition imported (seen : list string) (name : string) : bool :=
  existsb (String.eqb name) seen.

(** Every operation of [l] goes through a name in [seen] or bound by an
    import earlier in [l]. *)
Fixpoint names_bound (seen : list string) (l : list event) : bool :=
  match l with
  | [] => true
  | e :: rest =>
      match needs_at_most e with
      | Some name => imported seen name
      | None => true
      end && names_bound (import_binds e ++ seen) rest
  end.

Definition is_getattr (name : string) (e : event) : bool :=
  match e with
  | EvLib _ (OGetAttr _ n) _ => String.eqb n name
  | _ => false
  end.

Definition is_setattr (e : event) : bool :=
  match e with
  | EvLib _ (OSetAttr _ _ _) _ => true
  | _ => false
  end.

(** The object whose attribute is read or set. *)
Definition ev_target (e : event) : value :=
  match e with
  | EvLib _ (OGetAttr self _) _ => self
  | EvLib _ (OSetAttr self _ _) _ => self
  | _ => VNone
  end.

Definition ev_attr (e : event) : string :=
  match e with
  | EvLib _ (OGetAttr _ name) _ => name
  | EvLib _ (OSetAttr _ name _) _ => name
  | _ => ""
  end.

(** The value an attribute is set to. *)
Definition ev_value (e : event) : value :=
  match e with
  | EvLib _ (OSetAttr _ _ v) _ => v
  | _ => VNone
  end.

(** [self.name(args, kw)] is in the log and returned normally. *)
Definition method_returned (l : list event) (self : value) (name : string)
    (args : list value) (kw : kwargs) : Prop :=
  exists c r, In (EvLib c (OMethod self name args kw) (Ok r)) l.

(** [self.name(args, kw)] is in the log, whether it returned or raised. *)
Definition method_issued (l : list event) (self : value) (name : string)
    (args : list value) (kw : kwargs) : Prop :=
  exists c r, In (EvLib c (OMethod self name args kw) r) l.

(** [tokenizer] is the tokenizer reloaded from the saved files, with
    truncation enabled. *)
Definition reloaded_and_configured (l : list event) (tokenizer : value) : Prop :=
  returned_by l "ByteLevelBPETokenizer"
    [VStr "./EsperBERTo/vocab.json"; VStr "./EsperBERTo/merges.txt"] [] tokenizer /\
  method_returned l tokenizer "enable_truncation" [] [("max_length", VInt 512)].

(** Saving the tokenizer, in cell c924c50f. *)
Definition is_tokenizer_save (e : event) : bool :=
  in_cellb "c924c50f" e && is_method "save_model" e.

(** The two constructors that are given the tokenizer. *)
Definition takes_tokenizer (e : event) : bool :=
  is_call "LineByLineTextDataset" e || is_call "DataCollatorForLanguageModeling" e.

(** A directory without any [.txt] entry. *)
Definition no_corpus : Demo.world :=
  {| Demo.next := 0;
     Demo.entries := [["notes"]; ["notes"; "README.md"]; ["vocab.json"]] |}.

(** What the configured tokenizer returns for a sequence that the model
    cuts into [pieces]: the first 510 pieces between ["<s>"] and ["</s>"]. *)
Definition wrapped (pieces : list Tokenizers.token) : list string :=
  "<s>" :: map fst (firstn 510 pieces) ++ ["</s>"].

(** ** Rules of the program logic *)
Section Rules.

Variable World : Type.
Variable fs : World -> list Pathlib.path.
Variable shell : string -> World -> Z * World.
Variable lib : op -> World -> outcome value * World.

Lemma wp_run {A} (m : M World A) c w P :
  wp m c w P -> P (log (m c w)) (res (m c w)) (final (m c w)) (assigned (m c w)).
Proof.
  unfold wp, log, res, final, assigned. destruct (m c w) as [[[r w'] t] b]. auto.
Qed.

Lemma wp_ret {A} (a : A) c (w : World) P : P [] (Ok a) w [] -> wp (ret a) c w P.
Proof. auto. Qed.

Lemma wp_raise {A} e c (w : World) (P : list event -> outcome A -> World -> bindings -> Prop) :
  P [] (Raise e) w [] -> wp (raise e) c w P.
Proof. auto. Qed.

Lemma wp_assign name v c (w : World) P :
  P [] (Ok tt) w [(name, v)] -> wp (assign name v) c w P.
Proof. auto. Qed.

Lemma wp_bind {A B} (m : M World A) (k : A -> M World B) c w P :
  wp m c w (fun t r w1 b1 =>
              match r with
              | Ok a => wp (k a) c w1 (fun t' r' w2 b2 => P (t ++ t') r' w2 (b1 ++ b2))
              | Raise e => P t (Raise e) w1 b1
              end) ->
  wp (bind m k) c w P.
Proof.
  unfold wp, bind. destruct (m c w) as [[[[a | e] w1] t] b1]; auto.
  destruct (k a c w1) as [[[r' w2] t'] b2]. auto.
Qed.

Lemma wp_in_cell {A} id (m : M World A) c w P :
  wp m id w P -> wp (in_cell id m) c w P.
Proof. auto. Qed.

Lemma wp_perform o c w P :
  (forall r w', handle fs lib o w = (r, w') -> P [EvLib c o r] r w' []) ->
  wp (perform fs lib o) c w P.
Proof.
  unfold wp, perform. destruct (handle fs lib o w) as [r w']. auto.
Qed.

Lemma wp_sh cmd c w P :
  (forall status w', P [EvShell c cmd status] (Ok tt) w' []) ->
  wp (sh shell cmd) c w P.
Proof.
  unfold wp, sh. destruct (shell cmd w) as [status w']. auto.
Qed.

(** The comprehension over the paths a glob returned logs nothing. *)
Lemma wp_str_paths ps c w P :
  P [] (Ok (map (fun p => VStr (Pathlib.to_string p)) ps)) w [] ->
  wp (mapM (py_str fs lib) (map VPath ps)) c w P.
Proof.
  revert P. induction ps as [| p ps IH]; intros P HP; simpl.
  - apply wp_ret. exact HP.
  - apply wp_bind. apply wp_ret.
    apply wp_bind. apply IH. apply wp_ret. exact HP.
Qed.

(** A [%%time] cell ends normally however its body ends. *)
Lemma wp_magic_time {A} (m : M World A) c w P :
  swallowed m c w (fun t w' b => P t (Ok b) w' b) -> wp (magic_time m) c w P.
Proof.
  unfold wp, swallowed, magic_time. destruct (m c w) as [[[r w'] t] b]. auto.
Qed.

Lemma swallowed_bind {A B} (m : M World A) (k : A -> M World B) c w Q :
  wp m c w (fun t r w1 b1 =>
              match r with
              | Ok a => swallowed (k a) c w1 (fun t' w2 b2 => Q (t ++ t') w2 (b1 ++ b2))
              | Raise _ => Q t w1 b1
              end) ->
  swallowed (bind m k) c w Q.
Proof.
  unfold wp, swallowed, bind. destruct (m c w) as [[[[a | e] w1] t] b1]; auto.
  destruct (k a c w1) as [[[r' w2] t'] b2]. auto.
Qed.

(** The last statement of a body: whether it returns or raises makes no
    difference to what follows. *)
Lemma swallowed_last {A} o (a : A) c w Q :
  (forall r w', handle fs lib o w = (r, w') -> Q [EvLib c o r] w' []) ->
  swallowed (bind (perform fs lib o) (fun _ => ret a)) c w Q.
Proof.
  unfold swallowed, bind, perform, ret.
  destruct (handle fs lib o w) as [[v | e] w'] eqn:E; intro H;
    apply (H _ _ eq_refl).
Qed.

Lemma swallowed_end {A} (m : M World A) c w Q :
  wp m c w (fun t _ w' b => Q t w' b) -> swallowed m c w Q.
Proof.
  unfold wp, swallowed. destruct (m c w) as [[[r w'] t] b]. auto.
Qed.

Lemma emits_ret {A} Q (a : A) c : emits Q (@ret World A a) c.
Proof. intro w. constructor. Qed.

Lemma emits_raise {A} Q e c : emits Q (@raise World A e) c.
Proof. intro w. constructor. Qed.

Lemma emits_assign Q name v c : emits Q (@assign World name v) c.
Proof. intro w. constructor. Qed.

Lemma emits_load_name Q name names c : emits Q (@load_name World name names) c.
Proof.
  unfold load_name. destruct (bound_to name names);
    [apply emits_ret | apply emits_raise].
Qed.

Lemma emits_bind {A B} Q (m : M World A) (k : A -> M World B) c :
  emits Q m c -> (forall a, emits Q (k a) c) -> emits Q (bind m k) c.
Proof.
  intros Hm Hk w. specialize (Hm w). unfold log, bind in *.
  destruct (m c w) as [[[[a | e] w1] t] b1]; simpl in *; auto.
  specialize (Hk a w1). unfold log in Hk.
  destruct (k a c w1) as [[[r' w2] t'] b2]. simpl in *.
  apply Forall_app. auto.
Qed.

Lemma emits_in_cell {A} Q id (m : M World A) c :
  emits Q m id -> emits Q (in_cell id m) c.
Proof. auto. Qed.

Lemma emits_magic_time {A} Q (m : M World A) c :
  emits Q m c -> emits Q (magic_time m) c.
Proof.
  intros H w. specialize (H w). unfold log, magic_time in *.
  destruct (m c w) as [[[r w'] t] b]. exact H.
Qed.

Lemma emits_perform Q o c :
  (forall r, Q (EvLib c o r)) -> emits Q (perform fs lib o) c.
Proof.
  intros H w. unfold log, perform. destruct (handle fs lib o w) as [r w'].
  simpl. auto.
Qed.

Lemma emits_sh Q cmd c :
  (forall status, Q (EvShell c cmd status)) -> emits Q (sh shell cmd) c.
Proof.
  intros H w. unfold log, sh. destruct (shell cmd w) as [status w'].
  simpl. auto.
Qed.

Lemma emits_iterate Q v c : emits Q (@iterate World v) c.
Proof. destruct v; simpl; first [apply emits_ret | apply emits_raise]. Qed.

Lemma emits_mapM {A B} Q (f : A -> M World B) l c :
  (forall x, emits Q (f x) c) -> emits Q (mapM f l) c.
Proof.
  intros Hf. induction l as [| x l IH]; simpl.
  - apply emits_ret.
  - apply emits_bind; [apply Hf |]. intros y.
    apply emits_bind; [apply IH |]. intros ys. apply emits_ret.
Qed.

(** From a whole-program [emits] to the events of a run. *)
Lemma emits_run (Q : event -> Prop) w :
  emits Q (notebook fs shell lib) "" ->
  forall e, In e (log (run_all fs shell lib w)) -> Q e.
Proof.
  intros H e He. specialize (H w). rewrite Forall_forall in H. auto.
Qed.

End Rules.

Ltac head_of t :=
  lazymatch t with
  | ?f _ => head_of f
  | _ => t
  end.

(** Walking through a program with the [emits] rules; what is left is one
    goal per logged operation. *)
Ltac emits_step :=
  lazymatch goal with
  | |- emits _ (bind _ _) _ => apply emits_bind; [| intros ?]
  | |- emits _ (in_cell _ _) _ => apply emits_in_cell
  | |- emits _ (magic_time _) _ => apply emits_magic_time
  | |- emits _ (ret _) _ => apply emits_ret
  | |- emits _ (assign _ _) _ => apply emits_assign
  | |- emits _ (load_name _ _) _ => apply emits_load_name
  | |- emits _ (iterate _) _ => apply emits_iterate
  | |- emits _ (mapM _ _) _ => apply emits_mapM; intros ?
  | |- emits _ (sh _ _) _ => apply emits_sh; intros ?
  | |- emits _ (perform _ _ _) _ => apply emits_perform; intros ?
  | |- emits _ (py_str _ _ ?x) _ => destruct x; simpl
  | |- emits _ ?m _ => let h := head_of m in unfold h
  end.

Ltac emits_walk := repeat emits_step.

(** What the oracle answered: computed for a glob, one case per outcome
    otherwise. *)
Ltac answered r w H :=
  cbn in H;
  first [ injection H as <- <- | clear H; destruct r as [? | ?] ];
  cbv beta iota.

(** Looking a name up in the names a cell bound. *)
Ltac looked_up :=
  lazymatch goal with
  | |- context [load_name ?n ?b] =>
      let v := eval cbv beta iota zeta delta
                 [bound_to kw_lookup rev app String.eqb Ascii.eqb Bool.eqb] in
                 (bound_to n b) in
      unfold load_name; change (bound_to n b) with v; cbv beta iota
  end.

(** Walking through a program with the [wp] rules: one goal per way the
    run can end, with the log written out. *)
Ltac wp_step :=
  lazymatch goal with
  | |- wp (bind _ _) _ _ _ => apply wp_bind
  | |- wp (in_cell _ _) _ _ _ => apply wp_in_cell
  | |- wp (magic_time _) _ _ _ => apply wp_magic_time
  | |- wp (ret _) _ _ _ => apply wp_ret; cbv beta iota
  | |- wp (raise _) _ _ _ => apply wp_raise; cbv beta iota
  | |- wp (assign _ _) _ _ _ => apply wp_assign; cbv beta iota
  | |- wp (load_name _ _) _ _ _ => looked_up
  | |- wp (iterate (VList _)) _ _ _ => unfold iterate
  | |- wp (mapM (py_str _ _) (map VPath _)) _ _ _ =>
      apply wp_str_paths; cbv beta iota
  | |- wp (sh _ _) _ _ _ => apply wp_sh; intros ? ?; cbv beta iota
  | |- wp (perform _ _ _) _ _ _ =>
      let r := fresh "r" in
      let w := fresh "w" in
      let H := fresh "H" in
      apply wp_perform; intros r w H; answered r w H
  | |- wp ?m _ _ _ => let h := head_of m in unfold h
  | |- swallowed (bind (perform _ _ _) _) _ _ _ =>
      first [ let r := fresh "r" in
              let w := fresh "w" in
              let H := fresh "H" in
              apply swallowed_last; intros r w H; clear H; cbv beta iota
            | apply swallowed_bind ]
  | |- swallowed (bind (bind _ _) _) _ _ _ => apply swallowed_bind
  | |- swallowed (bind (assign _ _) _) _ _ _ => apply swallowed_bind
  | |- swallowed (bind ?m _) _ _ _ => let h := head_of m in unfold h
  | |- swallowed (perform _ _ _) _ _ _ => apply swallowed_end
  | |- swallowed (ret _) _ _ _ => apply swallowed_end
  | |- swallowed (assign _ _) _ _ _ => apply swallowed_end
  | |- swallowed ?m _ _ _ => let h := head_of m in unfold h
  end.

Ltac wp_walk := repeat wp_step.

(** A property of every event of a run, by the [emits] rules. *)
Ltac every_event :=
  lazymatch goal with
  | |- forall e, In e (log (run_all ?fs ?shell ?lib ?w)) -> @?Q e =>
      apply (@emits_run _ fs shell lib Q w); emits_walk
  end.

(** Every way the whole notebook can end. *)
Ltac all_runs P :=
  lazymatch goal with
  | |- context [run_all ?fs ?shell ?lib ?w] =>
      unfold run_all;
      apply (wp_run (notebook fs shell lib) "" w
               (fun t r w' (_ : bindings) => P t r w'));
      wp_walk
  end.

(** A property of the events picked by a test needs checking on those
    events only. *)
Lemma by_filter (g : event -> bool) (Q : event -> Prop) (l : list event) :
  (forall e, In e (filter g l) -> Q e) ->
  forall e, In e l -> g e = true -> Q e.
Proof.
  intros H e He Hg. apply H. apply filter_In. auto.
Qed.

Ltac picked_events :=
  lazymatch goal with
  | |- forall e, In e ?l -> ?g e = true -> _ =>
      apply by_filter;
      let picked := eval vm_compute in (filter g l) in
      change (filter g l) with picked
  end.

(** Searching an evaluated log for a given event. *)
Ltac find_in := first [left; reflexivity | right; find_in].

(** Searching a written-out log for an event with holes. *)
Ltac in_log :=
  lazymatch goal with
  | |- In _ (_ :: _) => first [left; reflexivity | right; in_log]
  end.

Ltac returned :=
  lazymatch goal with
  | |- returned_by _ _ _ _ _ => unfold returned_by; eexists; in_log
  end.

(** ** The claims *)

(** *** C1 *)

(** C1.  Whatever the shell tools and the libraries do, every
    tokenizer-training call the notebook issues passes [vocab_size=52000],
    [min_frequency=2] and the five special tokens ["<s>"], ["<pad>"],
    ["</s>"], ["<unk>"], ["<mask>"], in that order, next to the files; and
    a run that gets through issues exactly one such call. *)
Theorem tokenizer_train_parameters World fs shell lib (w : World) :
  (forall e, In e (log (run_all fs shell lib w)) ->
             is_tokenizer_train e = true ->
             ev_args e = [] /\
             exists files, ev_kwargs e = train_keywords files) /\
  (res (run_all fs shell lib w) = Ok tt ->
   List.length (filter is_tokenizer_train (log (run_all fs shell lib w))) = 1%nat).
Proof.
  split.
  - every_event.
    all: try (intro H; discriminate H).
    intros _. split; [reflexivity |]. eexists. reflexivity.
  - all_runs (fun t (r : outcome unit) (_ : World) =>
                r = Ok tt -> List.length (filter is_tokenizer_train t) = 1%nat).
    all: intro H; try discriminate H.
    reflexivity.
Qed.

Lemma tokenizer_train_parameters_witness :
  let e := EvLib "762d951b"
             (OMethod (VObj 2) "train" []
                (train_keywords
                   (VList [VStr "EsperBERTo/merges.txt"; VStr "oscar.eo.txt"])))
             (Ok (VObj 3)) in
  In e (log (demo_run Demo.never)) /\
  (ev_args e = [] /\ exists files, ev_kwargs e = train_keywords files) /\
  List.length (filter is_tokenizer_train (log (demo_run Demo.never))) = 1%nat.
Proof.
  intro e.
  destruct (tokenizer_train_parameters Demo.entries Demo.shell
              (Demo.lib Demo.never) Demo.start) as [Hcall Honce].
  assert (Hin : In e (log (demo_run Demo.never))) by (vm_compute; find_in).
  split; [exact Hin |]. split.
  - apply Hcall; [exact Hin | reflexivity].
  - apply Honce. reflexivity.
Defined.

(** *** C2 *)

(** C2.  Every [RobertaConfig] call the notebook issues has no positional
    argument and passes [num_hidden_layers=6], [num_attention_heads=12],
    [max_position_embeddings=514] and [vocab_size=52000]; a run that gets
    through issues exactly one. *)
Theorem model_construction_parameters World fs shell lib (w : World) :
  (forall e, In e (log (run_all fs shell lib w)) ->
             is_call "RobertaConfig" e = true ->
             ev_args e = [] /\
             kw_lookup "num_hidden_layers" (ev_kwargs e) = Some (VInt 6) /\
             kw_lookup "num_attention_heads" (ev_kwargs e) = Some (VInt 12) /\
             kw_lookup "max_position_embeddings" (ev_kwargs e) = Some (VInt 514) /\
             kw_lookup "vocab_size" (ev_kwargs e) = Some (VInt 52000)) /\
  (res (run_all fs shell lib w) = Ok tt ->
   List.length (filter (is_call "RobertaConfig") (log (run_all fs shell lib w)))
   = 1%nat).
Proof.
  split.
  - every_event.
    all: try (intro H; discriminate H).
    intros _. repeat split; reflexivity.
  - all_runs (fun t (r : outcome unit) (_ : World) =>
                r = Ok tt ->
                List.length (filter (is_call "RobertaConfig") t) = 1%nat).
    all: intro H; try discriminate H.
    reflexivity.
Qed.

Lemma model_construction_parameters_witness :
  In config_event (log (demo_run Demo.never)) /\
  kw_lookup "num_hidden_layers" (ev_kwargs config_event) = Some (VInt 6) /\
  List.length (filter (is_call "RobertaConfig") (log (demo_run Demo.never)))
  = 1%nat.
Proof.
  destruct (model_construction_parameters Demo.entries Demo.shell
              (Demo.lib Demo.never) Demo.start) as [Hcall Honce].
  assert (Hin : In config_event (log (demo_run Demo.never)))
    by (vm_compute; find_in).
  split; [exact Hin |]. split.
  - apply (Hcall config_event Hin). reflexivity.
  - apply Honce. reflexivity.
Defined.

(** *** C3 *)

(** C3 as stated fails: in the run where everything succeeds the
    [RobertaConfig] call is issued and carries no [hidden_size] keyword, so
    not every such call passes [hidden_size=768]. *)
Lemma hidden_size_literal_counterexample :
  ~ (forall e, In e (log (demo_run Demo.never)) ->
               is_call "RobertaConfig" e = true ->
               kw_lookup "hidden_size" (ev_kwargs e) = Some (VInt 768)).
Proof.
  intro H.
  assert (Hin : In config_event (log (demo_run Demo.never)))
    by (vm_compute; find_in).
  specialize (H config_event Hin eq_refl). discriminate H.
Qed.

(** C3, amended.  Every [RobertaConfig] call of the notebook has no
    positional argument and exactly the keywords [vocab_size],
    [max_position_embeddings], [num_attention_heads], [num_hidden_layers]
    and [type_vocab_size]; [hidden_size] is not passed, so the hidden size
    the model gets is whatever default the library has for it. *)
Theorem hidden_size_left_to_default World fs shell lib (w : World) :
  forall e, In e (log (run_all fs shell lib w)) ->
            is_call "RobertaConfig" e = true ->
            ev_args e = [] /\
            map fst (ev_kwargs e)
            = ["vocab_size"; "max_position_embeddings"; "num_attention_heads";
               "num_hidden_layers"; "type_vocab_size"] /\
            kw_lookup "hidden_size" (ev_kwargs e) = None /\
            forall default, kw_or_default "hidden_size" (ev_kwargs e) default = default.
Proof.
  every_event.
  all: try (intro H; discriminate H).
  intros _. repeat split; reflexivity.
Qed.

Lemma hidden_size_left_to_default_witness :
  In config_event (log (demo_run Demo.never)) /\
  kw_or_default "hidden_size" (ev_kwargs config_event) (VInt 768) = VInt 768.
Proof.
  assert (Hin : In config_event (log (demo_run Demo.never)))
    by (vm_compute; find_in).
  split; [exact Hin |].
  apply (hidden_size_left_to_default Demo.entries Demo.shell
           (Demo.lib Demo.never) Demo.start config_event Hin).
  reflexivity.
Defined.

(** *** C4 *)

(** C4.  Every [trainer.train()] the notebook issues is on a trainer built
    with [args] from [TrainingArguments(..., num_train_epochs=1,
    per_gpu_train_batch_size=64, ...)] and [data_collator] from
    [DataCollatorForLanguageModeling(..., mlm=True, mlm_probability=0.15)];
    the literal [0.15] is fifteen hundredths; and a run that gets through
    trains exactly once. *)
Theorem training_step_parameters World fs shell lib (w : World) :
  (forall e, In e (log (run_all fs shell lib w)) ->
             is_trainer_train e = true ->
             training_configured (log (run_all fs shell lib w)) (ev_self e)) /\
  decimal_value (Decimal 15 2) == 15 # 100 /\
  (res (run_all fs shell lib w) = Ok tt ->
   List.length (filter is_trainer_train (log (run_all fs shell lib w))) = 1%nat).
Proof.
  split; [| split].
  - all_runs (fun t (_ : outcome unit) (_ : World) =>
                forall e, In e t -> is_trainer_train e = true ->
                          training_configured t (ev_self e)).
    all: simpl app; picked_events.
    all: intros ? Hin; repeat (destruct Hin as [<- | Hin]); try contradiction.
    all: unfold training_configured; do 5 eexists.
    all: repeat split; first [returned | reflexivity].
  - reflexivity.
  - all_runs (fun t (r : outcome unit) (_ : World) =>
                r = Ok tt -> List.length (filter is_trainer_train t) = 1%nat).
    all: intro H; try discriminate H.
    reflexivity.
Qed.

Lemma training_step_parameters_witness :
  let e := EvLib "107a6a6c" (OMethod (VObj 28) "train" [] []) (Ok (VObj 29)) in
  In e (log (demo_run Demo.never)) /\
  training_configured (log (demo_run Demo.never)) (VObj 28) /\
  List.length (filter is_trainer_train (log (demo_run Demo.never))) = 1%nat.
Proof.
  intro e.
  destruct (training_step_parameters Demo.entries Demo.shell
              (Demo.lib Demo.never) Demo.start) as (Hcfg & _ & Honce).
  assert (Hin : In e (log (demo_run Demo.never))) by (vm_compute; find_in).
  split; [exact Hin |]. split.
  - apply (Hcfg e Hin). reflexivity.
  - apply Honce. vm_compute. reflexivity.
Defined.

(** *** C5 *)



(** *** C6 *)

(** C6.  In every run the inputs of the fill-mask calls, in order, are a
    beginning of the two sample sentences, one sentence per call, and both
    of them when the run gets through; each such call is on the object that
    [pipeline("fill-mask", ...)] returned and has no keyword; and each of
    the two sentences contains ["<mask>"] exactly once. *)
Theorem fill_mask_calls World fs shell lib (w : World) :
  prefix_of (fill_mask_inputs (log (run_all fs shell lib w)))
    (map (fun s => [VStr s]) sample_sentences) /\
  (res (run_all fs shell lib w) = Ok tt ->
   fill_mask_inputs (log (run_all fs shell lib w))
   = map (fun s => [VStr s]) sample_sentences) /\
  (forall e, In e (log (run_all fs shell lib w)) ->
             is_fill_mask e = true ->
             ev_kwargs e = [] /\
             exists kw, returned_by (log (run_all fs shell lib w))
                          "pipeline" [VStr "fill-mask"] kw (ev_self e)) /\
  Forall (fun s => count_sub "<mask>" s = 1%nat) sample_sentences.
Proof.
  split; [| split; [| split]].
  - all_runs (fun t (_ : outcome unit) (_ : World) =>
                prefix_of (fill_mask_inputs t)
                  (map (fun s => [VStr s]) sample_sentences)).
    all: lazymatch goal with
         | |- prefix_of ?s _ =>
             let s' := eval vm_compute in s in change s with s'
         end.
    all: eexists; reflexivity.
  - all_runs (fun t (r : outcome unit) (_ : World) =>
                r = Ok tt ->
                fill_mask_inputs t = map (fun s => [VStr s]) sample_sentences).
    all: intro H; first [discriminate H | reflexivity].
  - all_runs (fun t (_ : outcome unit) (_ : World) =>
                forall e, In e t -> is_fill_mask e = true ->
                          ev_kwargs e = [] /\
                          exists kw, returned_by t "pipeline" [VStr "fill-mask"]
                                       kw (ev_self e)).
    all: simpl app; picked_events.
    all: intros ? Hin; repeat (destruct Hin as [<- | Hin]); try contradiction.
    all: split; [reflexivity | eexists; returned].
  - repeat constructor.
Qed.

Lemma fill_mask_calls_witness :
  let e := EvLib "9b916992"
             (OMethod (VObj 32) "__call__"
                [VStr "Jen la komenco de bela <mask>."] [])
             (Ok (VObj 34)) in
  In e (log (demo_run Demo.never)) /\
  fill_mask_inputs (log (demo_run Demo.never))
  = map (fun s => [VStr s]) sample_sentences /\
  exists kw, returned_by (log (demo_run Demo.never))
               "pipeline" [VStr "fill-mask"] kw (VObj 32).
Proof.
  intro e.
  destruct (fill_mask_calls Demo.entries Demo.shell (Demo.lib Demo.never)
              Demo.start) as (_ & Hall & Hcall & _).
  assert (Hok : res (demo_run Demo.never) = Ok tt) by (vm_compute; reflexivity).
  assert (Hin : In e (log (demo_run Demo.never))) by (vm_compute; find_in).
  split; [exact Hin |]. split.
  - exact (Hall Hok).
  - apply (Hcall e Hin). reflexivity.
Defined.

(** *** C7 *)

(** C7 as stated fails for library calls: both [train] calls raise, each
    inside a [%%time] cell; the magic catches the exception, the cells that
    follow run, the untrained tokenizer and model are saved, the pipeline is
    built, and the run ends normally. *)
Lemma failure_propagation_counterexample :
  ~ (forall e x, In e (log (demo_run (Demo.failing ["train"]))) ->
                 ev_raised e = Some x ->
                 res (demo_run (Demo.failing ["train"])) = Raise x).
Proof.
  intro H.
  assert (Hin : In (EvLib "107a6a6c" (OMethod (VObj 27) "train" [] [])
                      (Raise (VExc "RuntimeError")))
                   (log (demo_run (Demo.failing ["train"]))))
    by (vm_compute; find_in).
  specialize (H _ (VExc "RuntimeError") Hin eq_refl).
  vm_compute in H. discriminate H.
Qed.

Lemma ends_cells_sound (l : list event) :
  ends_cells l = true ->
  forall pre e post x,
    l = pre ++ e :: post -> ev_raised e = Some x ->
    (forall e', In e' post -> ev_cell e' <> ev_cell e) /\
    (timed (ev_cell e) = false -> post = []) /\
    (timed (ev_cell e) = true -> post <> []).
Proof.
  intros Hl pre. revert l Hl.
  induction pre as [| e0 pre IH]; intros l Hl e post x -> Hx; simpl in Hl;
    apply andb_true_iff in Hl; destruct Hl as [Hhere Hrest].
  - rewrite Hx in Hhere. apply andb_true_iff in Hhere.
    destruct Hhere as [Hcell Hlast].
    split; [| split].
    + intros e' He' Heq. rewrite forallb_forall in Hcell.
      specialize (Hcell e' He'). rewrite Heq, String.eqb_refl in Hcell.
      discriminate Hcell.
    + intros Ht. rewrite Ht in Hlast. destruct post; [reflexivity | discriminate Hlast].
    + intros Ht. rewrite Ht in Hlast. destruct post; [discriminate Hlast | discriminate].
  - exact (IH _ Hrest e post x eq_refl Hx).
Qed.

Lemma last_event_end (pre : list event) (e : event) :
  last_event (pre ++ [e]) = Some e.
Proof.
  unfold last_event. destruct pre as [| e0 pre]; [reflexivity |].
  simpl. f_equal. apply last_last.
Qed.

(** C7, amended.  The notebook has no handler of its own, but three of its
    cells begin with [%%time], and that magic catches what its body raises.
    In every run: an exception raised by a library operation ends its cell,
    no operation of that cell follows it, so nothing is retried; raised in a
    cell without [%%time], it is the last operation of the run and the run
    ends with that very exception; raised in a [%%time] cell, it is caught
    there and the run goes on with the next cell.  A run that ends with an
    exception ends either with the exception a library operation raised in
    a cell without [%%time], that operation being the last one, or with the
    interpreter's [NameError] for a name that a caught exception left
    unbound.  The exit status of a shell tool is never raised. *)
Theorem exceptions_end_their_cell World fs shell lib (w : World) :
  (forall pre e post x,
      log (run_all fs shell lib w) = pre ++ e :: post ->
      ev_raised e = Some x ->
      (forall e', In e' post -> ev_cell e' <> ev_cell e) /\
      (timed (ev_cell e) = false ->
       post = [] /\ res (run_all fs shell lib w) = Raise x) /\
      (timed (ev_cell e) = true -> post <> [])) /\
  (forall x, res (run_all fs shell lib w) = Raise x ->
             (exists c o, last_event (log (run_all fs shell lib w))
                          = Some (EvLib c o (Raise x)) /\
                          timed c = false) \/
             (x = VExc "NameError" /\
              exists e, In e (log (run_all fs shell lib w)) /\
                        ev_raised e <> None /\ timed (ev_cell e) = true)).
Proof.
  enough (H : ends_cells (log (run_all fs shell lib w)) = true /\
              (forall c o x,
                  last_event (log (run_all fs shell lib w))
                  = Some (EvLib c o (Raise x)) ->
                  timed c = false -> res (run_all fs shell lib w) = Raise x) /\
              (forall x, res (run_all fs shell lib w) = Raise x ->
                         (exists c o, last_event (log (run_all fs shell lib w))
                                      = Some (EvLib c o (Raise x)) /\
                                      timed c = false) \/
                         (x = VExc "NameError" /\
                          caught_by_time (log (run_all fs shell lib w)) = true))).
  { destruct H as (Hends & Hlast & Hres). split.
    - intros pre e post x Hlog Hx.
      destruct (@ends_cells_sound _ Hends pre e post x Hlog Hx) as (Hcell & Hun & Ht).
      split; [exact Hcell | split; [| exact Ht]].
      intros Hu. specialize (Hun Hu). split; [exact Hun |].
      subst post. destruct e as [c cmd status | c o [v | y]]; try discriminate Hx.
      injection Hx as ->. apply (Hlast c o x); [| exact Hu].
      rewrite Hlog. apply last_event_end.
    - intros x Hx. destruct (Hres x Hx) as [Hl | [Hn Hc]]; [left; exact Hl | right].
      split; [exact Hn |]. unfold caught_by_time in Hc.
      apply existsb_exists in Hc. destruct Hc as (e & He & Hc).
      exists e. split; [exact He |].
      destruct (ev_raised e); [| discriminate Hc].
      split; [discriminate | exact Hc]. }
  all_runs (fun t (r : outcome unit) (_ : World) =>
              ends_cells t = true /\
              (forall c o x, last_event t = Some (EvLib c o (Raise x)) ->
                             timed c = false -> r = Raise x) /\
              (forall x, r = Raise x ->
                         (exists c o, last_event t = Some (EvLib c o (Raise x)) /\
                                      timed c = false) \/
                         (x = VExc "NameError" /\ caught_by_time t = true))).
  all: repeat match goal with r : outcome value |- _ => destruct r end.
  all: split; [vm_compute; reflexivity | split].
  all: try (intros c o x H Ht; vm_compute in H;
            first [ discriminate H
                  | injection H as <- <- <-; first [reflexivity | discriminate Ht] ]).
  all: intros x Hx; first [ discriminate Hx | injection Hx as <- ].
  all: first [ left; do 2 eexists; split; reflexivity
             | right; split; reflexivity ].
Qed.

Lemma exceptions_end_their_cell_witness :
  let run := demo_run (Demo.failing ["train"; "RobertaConfig"]) in
  raised (log run) = [VExc "RuntimeError"; VExc "RuntimeError"] /\
  res run = Raise (VExc "RuntimeError") /\
  (exists c o, last_event (log run) = Some (EvLib c o (Raise (VExc "RuntimeError"))) /\
               timed c = false) /\
  skipn 9 (log run) <> [] /\
  skipn 27 (log run) = [].
Proof.
  intro run.
  destruct (exceptions_end_their_cell Demo.entries Demo.shell
              (Demo.lib (Demo.failing ["train"; "RobertaConfig"])) Demo.start)
    as [Hends Hres].
  assert (Hr : res run = Raise (VExc "RuntimeError")) by (vm_compute; reflexivity).
  assert (Hcaught : exists e,
             log run = firstn 8 (log run) ++ e :: skipn 9 (log run) /\
             ev_raised e = Some (VExc "RuntimeError") /\
             timed (ev_cell e) = true).
  { eexists. vm_compute. repeat split. }
  assert (Hlast : exists e,
             log run = firstn 26 (log run) ++ e :: skipn 27 (log run) /\
             ev_raised e = Some (VExc "RuntimeError") /\
             timed (ev_cell e) = false).
  { eexists. vm_compute. repeat split. }
  destruct Hcaught as (e1 & Hlog1 & Hx1 & Ht1).
  destruct Hlast as (e2 & Hlog2 & Hx2 & Ht2).
  split; [vm_compute; reflexivity |]. split; [exact Hr |]. split; [| split].
  - destruct (Hres _ Hr) as [Hl | [Hn _]]; [exact Hl | discriminate Hn].
  - destruct (Hends _ _ _ _ Hlog1 Hx1) as (_ & _ & Hgo). exact (Hgo Ht1).
  - destruct (Hends _ _ _ _ Hlog2 Hx2) as (_ & Hstop & _).
    destruct (Hstop Ht2) as [Hnil _]. exact Hnil.
Defined.

(** *** C8 *)

Lemma list_ascii_of_string_app (a b : string) :
  list_ascii_of_string (a ++ b)%string
  = list_ascii_of_string a ++ list_ascii_of_string b.
Proof.
  induction a as [| c a IH]; simpl; [reflexivity | now rewrite IH].
Qed.

(** [*.txt] matches every name that ends in [.txt]. *)
Lemma star_txt_matches (name : string) :
  Pathlib.has_suffix ".txt" name -> Pathlib.name_matches "*.txt" name = true.
Proof.
  intros [stem ->]. unfold Pathlib.name_matches.
  rewrite list_ascii_of_string_app.
  induction (list_ascii_of_string stem) as [| c s IH].
  - reflexivity.
  - simpl in *. rewrite IH. apply orb_true_r.
Qed.

(** [**/*.txt] matches every path whose last component ends in [.txt],
    however deep. *)
Lemma recursive_txt_matches (p : Pathlib.path) :
  Pathlib.is_txt p -> Pathlib.match_parts ["**"; "*.txt"] p = true.
Proof.
  intros (dir & name & -> & Hname).
  apply star_txt_matches in Hname.
  induction dir as [| d dir IH].
  - simpl. rewrite Hname. reflexivity.
  - simpl in *. rewrite IH. apply orb_true_r.
Qed.

Lemma glob_finds_every_txt (entries : list Pathlib.path) (p : Pathlib.path) :
  In p entries -> Pathlib.is_txt p -> In p (Pathlib.glob entries [] "**/*.txt").
Proof.
  intros Hin Htxt. unfold Pathlib.glob. apply filter_In. split; [exact Hin |].
  simpl. change (Pathlib.parts_of "**/*.txt") with ["**"; "*.txt"].
  now apply recursive_txt_matches.
Qed.

(** C8.  Run source lines 94 to 106 in any cell and any world [w].  Every
    [train] call logged passes as [files] the string of every path that
    [Path(".").glob("**/*.txt")] yields in [w], nothing filtered out; so
    every entry below the working directory whose name ends in [.txt] is in
    the training input, whatever it is called.  The call is issued as soon
    as the tokenizer constructor returns.  In a run of the whole notebook
    the [files] of the tokenizer-training call are the strings of exactly
    the paths its glob returned. *)
Theorem training_input_is_every_txt_file World fs lib c (w : World) :
  (forall e, In e (log (tokenizer_training fs lib c w)) ->
             is_method "train" e = true ->
             ev_kwargs e = train_keywords (VList (training_files fs w)) /\
             forall p, In p (fs w) -> Pathlib.is_txt p ->
                       In (VStr (Pathlib.to_string p)) (training_files fs w)) /\
  (forall tokenizer w1,
      lib (OCall "ByteLevelBPETokenizer" [] []) w = (Ok tokenizer, w1) ->
      exists r, In (EvLib c (OMethod tokenizer "train" []
                               (train_keywords (VList (training_files fs w)))) r)
                  (log (tokenizer_training fs lib c w))) /\
  (forall shell w0 e,
      In e (log (run_all fs shell lib w0)) ->
      is_tokenizer_train e = true ->
      exists found,
        In (EvLib "762d951b" (OMethod (VPath []) "glob" [VStr "**/*.txt"] [])
              (Ok (VList (map VPath found))))
          (log (run_all fs shell lib w0)) /\
        ev_kwargs e
        = train_keywords (VList (map (fun p => VStr (Pathlib.to_string p)) found))).
Proof.
  rewrite <- and_assoc. split; [| intros shell w0;
    all_runs (fun t (_ : outcome unit) (_ : World) =>
                forall e, In e t -> is_tokenizer_train e = true ->
                  exists found,
                    In (EvLib "762d951b"
                          (OMethod (VPath []) "glob" [VStr "**/*.txt"] [])
                          (Ok (VList (map VPath found)))) t /\
                    ev_kwargs e
                    = train_keywords
                        (VList (map (fun p => VStr (Pathlib.to_string p)) found)));
    simpl app; picked_events;
    (intros ? Hin; repeat (destruct Hin as [<- | Hin]); try contradiction);
    eexists; (split; [in_log | reflexivity])].
  assert (Hall : forall p, In p (fs w) -> Pathlib.is_txt p ->
                           In (VStr (Pathlib.to_string p)) (training_files fs w)).
  { intros p Hp Htxt. unfold training_files.
    apply (in_map (fun q => VStr (Pathlib.to_string q))).
    now apply glob_finds_every_txt. }
  apply (wp_run (tokenizer_training fs lib) c w
           (fun t (_ : outcome value) (_ : World) (_ : bindings) =>
              (forall e, In e t -> is_method "train" e = true ->
                         ev_kwargs e = train_keywords (VList (training_files fs w)) /\
                         forall p, In p (fs w) -> Pathlib.is_txt p ->
                                   In (VStr (Pathlib.to_string p))
                                     (training_files fs w)) /\
              (forall tokenizer w1,
                  lib (OCall "ByteLevelBPETokenizer" [] []) w = (Ok tokenizer, w1) ->
                  exists r, In (EvLib c (OMethod tokenizer "train" []
                                           (train_keywords
                                              (VList (training_files fs w)))) r)
                              t))).
  unfold tokenizer_training. apply wp_bind.
  unfold stmt_paths. apply wp_bind. unfold method. apply wp_perform.
  intros r w' Hglob. cbn in Hglob. injection Hglob as <- <-.
  apply wp_bind. unfold iterate. apply wp_ret.
  apply wp_str_paths. apply wp_bind. apply wp_assign.
  apply wp_bind. unfold call. apply wp_perform.
  intros r w1 Hnew. cbn in Hnew. destruct r as [tokenizer | x].
  - apply wp_bind. apply wp_assign.
    apply wp_bind. unfold stmt_train, method. apply wp_perform.
    intros r w2 _. destruct r as [r2 | x2].
    + apply wp_ret. split.
      * intros e He Htrain. simpl in He.
        destruct He as [<- | [<- | [<- | []]]]; try discriminate Htrain.
        split; [reflexivity | exact Hall].
      * intros tok w3 Hnew'. rewrite Hnew in Hnew'. injection Hnew' as <- <-.
        eexists. simpl. right. right. left. reflexivity.
    + split.
      * intros e He Htrain. simpl in He.
        destruct He as [<- | [<- | [<- | []]]]; try discriminate Htrain.
        split; [reflexivity | exact Hall].
      * intros tok w3 Hnew'. rewrite Hnew in Hnew'. injection Hnew' as <- <-.
        eexists. simpl. right. right. left. reflexivity.
  - split.
    + intros e He Htrain. simpl in He.
      destruct He as [<- | [<- | []]]; discriminate Htrain.
    + intros tok w3 Hnew'. rewrite Hnew in Hnew'. discriminate Hnew'.
Qed.

Lemma training_input_is_every_txt_file_witness :
  In ["EsperBERTo"; "merges.txt"] (Demo.entries Demo.downloaded) /\
  Pathlib.is_txt ["EsperBERTo"; "merges.txt"] /\
  In (VStr "EsperBERTo/merges.txt") (training_files Demo.entries Demo.downloaded) /\
  exists r,
    In (EvLib "762d951b"
          (OMethod (VObj 0) "train" []
             (train_keywords (VList (training_files Demo.entries Demo.downloaded))))
          r)
      (log (tokenizer_training Demo.entries (Demo.lib Demo.never) "762d951b"
              Demo.downloaded)).
Proof.
  destruct (training_input_is_every_txt_file Demo.entries (Demo.lib Demo.never)
              "762d951b" Demo.downloaded) as (Hfiles & Hcall & _).
  assert (Hin : In ["EsperBERTo"; "merges.txt"] (Demo.entries Demo.downloaded))
    by (simpl; auto).
  assert (Htxt : Pathlib.is_txt ["EsperBERTo"; "merges.txt"])
    by (exists ["EsperBERTo"], "merges.txt"; split;
        [reflexivity | exists "merges"; reflexivity]).
  destruct (Hcall (VObj 0) {| Demo.next := 1;
                              Demo.entries := Demo.entries Demo.downloaded |}
              eq_refl) as [r Hr].
  split; [exact Hin |]. split; [exact Htxt |]. split.
  - exact (proj2 (Hfiles _ Hr eq_refl) _ Hin Htxt).
  - exists r. exact Hr.
Defined.

(** *** C9 *)

Lemma handle_other World (fs : World -> list Pathlib.path) lib o w :
  is_glob o = false -> handle fs lib o w = lib o w.
Proof.
  destruct o as [| | self name args kw | |]; try reflexivity.
  simpl. intro Hname. destruct self; try reflexivity.
  destruct args as [| [] [|]]; try reflexivity.
  destruct kw; try reflexivity. now rewrite Hname.
Qed.

Section TokenizerHeap.

Import Tokenizers.

Lemma nth_error_set_nth_same (h : heap) n o :
  (n < List.length h)%nat -> nth_error (set_nth n o h) n = Some o.
Proof.
  revert n. induction h as [| x h IH]; intros [| n] Hn; simpl in *;
    try lia; [reflexivity | apply IH; lia].
Qed.

Lemma nth_error_set_nth_other (h : heap) n m o :
  n <> m -> nth_error (set_nth n o h) m = nth_error h m.
Proof.
  revert n m. induction h as [| x h IH]; intros [| n] [| m] Hnm; simpl;
    try reflexivity; try congruence.
  apply IH. congruence.
Qed.

Lemma length_set_nth (h : heap) n o : List.length (set_nth n o h) = List.length h.
Proof.
  revert n. induction h as [| x h IH]; intros [| n]; simpl; auto.
Qed.

Lemma nth_error_bound (h : heap) n o :
  nth_error h n = Some o -> (n < List.length h)%nat.
Proof. intro H. apply nth_error_Some. congruence. Qed.

Lemma nth_error_grown (h : heap) n o x :
  nth_error h n = Some o -> nth_error (h ++ [x]) n = Some o.
Proof.
  intro H. rewrite nth_error_app1; [exact H | eapply nth_error_bound; eauto].
Qed.

Lemma nth_error_new (h : heap) x : nth_error (h ++ [x]) (List.length h) = Some x.
Proof. rewrite nth_error_app2, Nat.sub_diag; [reflexivity | lia]. Qed.

Lemma token_to_id_cases v t :
  token_to_id v t = VNone \/ exists n, token_to_id v t = VInt n.
Proof.
  induction v as [| [t' n] v IH]; simpl; [now left |].
  destruct (String.eqb t t'); [right; now exists n | exact IH].
Qed.

Lemma core_of_inv (h : heap) v i t :
  core_of h v = Some (i, t) ->
  exists a, v = VObj a /\ nth_error h a = Some (OWrapper i) /\
            nth_error h i = Some (OCore t).
Proof.
  unfold core_of. destruct v as [| | | | | | | | a |]; try discriminate.
  destruct (nth_error h a) as [[j | | |] |] eqn:Ha; try discriminate.
  destruct (nth_error h j) as [[| t' | |] |] eqn:Hj; try discriminate.
  intro H. injection H as -> ->. eauto.
Qed.

Lemma core_of_intro (h : heap) a i t :
  nth_error h a = Some (OWrapper i) -> nth_error h i = Some (OCore t) ->
  core_of h (VObj a) = Some (i, t).
Proof. intros Ha Hi. unfold core_of. now rewrite Ha, Hi. Qed.

Ltac lib_step H :=
  rewrite handle_other in H by reflexivity.

Lemma cell_ae4e9e92_configures (h : heap) tokenizer c :
  wp (cell_ae4e9e92 fs lib tokenizer) c h
     (fun _ r h' _ => r = Ok tt -> configured h' tokenizer).
Proof.
  unfold cell_ae4e9e92. apply wp_in_cell.
  apply wp_bind. unfold method. apply wp_perform. intros r h1 H. lib_step H.
  unfold lib in H.
  destruct (core_of h tokenizer) as [[i t] |] eqn:Hcore;
    [| injection H as <- <-; intro Hr; discriminate Hr].
  destruct (core_of_inv _ _ Hcore) as (a & -> & Ha & Hi).
  simpl in H. injection H as <- <-.
  apply wp_bind. apply wp_perform. intros r h1 H. lib_step H.
  unfold lib in H. rewrite Hcore in H. simpl in H. injection H as <- <-.
  apply wp_bind. unfold call. apply wp_perform. intros r h1 H. lib_step H.
  destruct (token_to_id_cases (vocab t) "</s>") as [Hsep | [sep_id Hsep]];
    rewrite Hsep in H;
    [simpl in H; injection H as <- <-; intro Hr; discriminate Hr |].
  destruct (token_to_id_cases (vocab t) "<s>") as [Hcls | [cls_id Hcls]];
    rewrite Hcls in H;
    [simpl in H; injection H as <- <-; intro Hr; discriminate Hr |].
  simpl in H. injection H as <- <-.
  set (proc := OBertProcessing ("</s>", sep_id) ("<s>", cls_id)).
  apply wp_bind. unfold getattr. apply wp_perform. intros r h1 H. lib_step H.
  simpl in H. rewrite (nth_error_grown _ _ proc Ha) in H. simpl in H.
  injection H as <- <-.
  apply wp_bind. unfold setattr. apply wp_perform. intros r h1 H. lib_step H.
  simpl in H. rewrite (nth_error_grown _ _ proc Hi), nth_error_new in H.
  simpl in H. injection H as <- <-.
  set (t1 := Core (vocab t) (bpe t) (Some (List.length h)) (truncation t)).
  set (h2 := set_nth i (OCore t1) (h ++ [proc])).
  assert (Hneq : i <> a) by (intros ->; congruence).
  assert (Hi_lt : (i < List.length (h ++ [proc]))%nat).
  { rewrite length_app. apply nth_error_bound in Hi. simpl. lia. }
  assert (Hcore2 : core_of h2 (VObj a) = Some (i, t1)).
  { apply core_of_intro.
    - unfold h2. rewrite nth_error_set_nth_other by exact Hneq.
      now apply nth_error_grown.
    - unfold h2. now apply nth_error_set_nth_same. }
  apply wp_bind. apply wp_perform. intros r h1 H. lib_step H.
  unfold lib in H. rewrite Hcore2 in H. simpl in H. injection H as <- <-.
  apply wp_ret. intros _.
  set (t2 := Core (vocab t) (bpe t) (Some (List.length h)) (Some 512)).
  assert (Hi2_lt : (i < List.length h2)%nat).
  { unfold h2. now rewrite length_set_nth. }
  exists i, t2, (List.length h), sep_id, cls_id. repeat split.
  - apply core_of_intro.
    + rewrite nth_error_set_nth_other by exact Hneq.
      unfold h2. rewrite nth_error_set_nth_other by exact Hneq.
      now apply nth_error_grown.
    + now apply nth_error_set_nth_same.
  - assert (Hp : i <> List.length h).
    { apply nth_error_bound in Hi. lia. }
    rewrite nth_error_set_nth_other by exact Hp.
    unfold h2. rewrite nth_error_set_nth_other by exact Hp.
    apply nth_error_new.
Qed.

Lemma length_truncate n added (l : list token) :
  (List.length (truncate (Some n) added l) <= Z.to_nat (n - added))%nat.
Proof. unfold truncate. apply firstn_le_length. Qed.

Lemma configured_encode (h : heap) tokenizer sequence c :
  configured h tokenizer ->
  wp (encode_tokens fs lib tokenizer sequence) c h
     (fun _ r _ _ =>
        exists tokens,
          r = Ok (VList (map VStr tokens)) /\
          (List.length tokens <= 512)%nat /\
          hd_error tokens = Some "<s>" /\
          last tokens "" = "</s>").
Proof.
  intros (i & t & p & sep_id & cls_id & Hcore & Hpost & Hproc & Htrunc).
  unfold encode_tokens.
  apply wp_bind. unfold method. apply wp_perform. intros r h1 H. lib_step H.
  unfold lib in H. rewrite Hcore in H. simpl in H. injection H as <- <-.
  apply wp_perform. intros r h1 H. lib_step H.
  simpl in H. rewrite nth_error_new in H. simpl in H. injection H as <- <-.
  unfold encode, special_tokens. rewrite Hpost, Hproc, Htrunc.
  set (kept := truncate (Some 512) 2 (bpe t sequence)).
  exists ("<s>" :: map fst kept ++ ["</s>"]). repeat split.
  - simpl. rewrite !map_app, map_map. reflexivity.
  - simpl. rewrite length_app, length_map. simpl.
    pose proof (length_truncate 512 2 (bpe t sequence)) as Hlen.
    fold kept in Hlen. change (Z.to_nat (512 - 2)) with 510%nat in Hlen.
    unfold token in *. lia.
  - change ("<s>" :: map fst kept ++ ["</s>"])
      with (("<s>" :: map fst kept) ++ ["</s>"]).
    apply last_last.
Qed.

End TokenizerHeap.

(** C9.  Against the tokenizers model: from any heap and for any value of
    [tokenizer], if cell ae4e9e92 runs through, then in the heap it leaves
    [tokenizer.encode(sequence).tokens] is, for every sequence, a list of at
    most 512 tokens whose first is ["<s>"] and whose last is ["</s>"]. *)
Theorem configured_tokenizer_wraps_and_truncates
    (h : Tokenizers.heap) (tokenizer : value) (c : string) :
  res (cell_ae4e9e92 Tokenizers.fs Tokenizers.lib tokenizer c h) = Ok tt ->
  forall sequence c',
  exists tokens,
    res (encode_tokens Tokenizers.fs Tokenizers.lib tokenizer sequence c'
           (final (cell_ae4e9e92 Tokenizers.fs Tokenizers.lib tokenizer c h)))
    = Ok (VList (map VStr tokens)) /\
    (List.length tokens <= 512)%nat /\
    hd_error tokens = Some "<s>" /\
    last tokens "" = "</s>".
Proof.
  intros Hok sequence c'.
  pose proof (wp_run _ _ _ _ (cell_ae4e9e92_configures h tokenizer c)) as Hcfg.
  simpl in Hcfg. specialize (Hcfg Hok).
  exact (wp_run _ _ _ _ (configured_encode sequence c' Hcfg)).
Qed.


Lemma configured_tokenizer_wraps_and_truncates_witness :
  res (cell_ae4e9e92 Tokenizers.fs Tokenizers.lib (VObj 0) "ae4e9e92" Demo.reloaded)
  = Ok tt /\
  exists tokens,
    res (encode_tokens Tokenizers.fs Tokenizers.lib (VObj 0)
           (replicate 600 "a") "b122da87"
           (final (cell_ae4e9e92 Tokenizers.fs Tokenizers.lib (VObj 0) "ae4e9e92"
                     Demo.reloaded)))
    = Ok (VList (map VStr tokens)) /\
    (List.length tokens <= 512)%nat /\
    hd_error tokens = Some "<s>" /\
    last tokens "" = "</s>".
Proof.
  assert (Hok : res (cell_ae4e9e92 Tokenizers.fs Tokenizers.lib (VObj 0)
                       "ae4e9e92" Demo.reloaded) = Ok tt)
    by (vm_compute; reflexivity).
  split; [exact Hok |].
  exact (configured_tokenizer_wraps_and_truncates Demo.reloaded (VObj 0)
           "ae4e9e92" Hok (replicate 600 "a") "b122da87").
Defined.

(** *** C10 *)












Example checkpoints_after_35000_steps :
  Trainer.train notebook_arguments (Trainer.Directory [] []) 0 (Z.to_nat 35000)
  = Trainer.Directory [20000; 30000] [10000; 20000; 30000].
Proof. vm_compute. reflexivity. Qed.

(** Writing over a checkpoint that is there does not count it twice. *)
Example checkpoint_written_over :
  Trainer.train notebook_arguments (Trainer.Directory [10000; 20000] []) 0
    (Z.to_nat 20000)
  = Trainer.Directory [10000; 20000] [10000; 20000].
Proof. vm_compute. reflexivity. Qed.

(** ** Further properties of the notebook *)

(** Every way the whole notebook can end.  The property is kept folded
    while walking and the written-out log is named [trace] at the end. *)
Ltac name_log :=
  lazymatch goal with
  | |- ?Post ?t ?r ?w ?b =>
      let t' := eval cbn [app] in t in
      change (Post t' r w b);
      let trace := fresh "trace" in
      set (trace := t')
  end.

Ltac each_run P :=
  lazymatch goal with
  | |- context [run_all ?fs ?shell ?lib ?w] =>
      let Post := fresh "Post" in
      pose (Post := fun t r w' (_ : bindings) => P t r w');
      unfold run_all;
      apply (wp_run (notebook fs shell lib) "" w Post);
      wp_walk; name_log; subst Post; cbv beta
  end.

(** The events a test picks from the log, by evaluation; where none is
    picked nothing is left to prove. *)
Ltac picked :=
  lazymatch goal with
  | |- forall e, In e ?l -> ?g e = true -> _ =>
      apply by_filter;
      let found := eval vm_compute in (filter g l) in
      let H := fresh "H" in
      assert (H : filter g l = found) by (vm_compute; reflexivity);
      rewrite H; clear H;
      let Hin := fresh "Hin" in
      intros ? Hin; repeat (destruct Hin as [<- | Hin]); try contradiction;
      repeat match goal with l := _ : list event |- _ => subst l end
  end.

(** Searching a written-out log for an event with holes: only an event
    of the same kind and name is tried. *)
Ltac in_trace :=
  match goal with
  | |- In (EvLib _ (OCall ?f _ _) _) (EvLib _ (OCall ?f _ _) _ :: _) =>
      left; reflexivity
  | |- In (EvLib _ (OMethod _ ?m _ _) _) (EvLib _ (OMethod _ ?m _ _) _ :: _) =>
      left; reflexivity
  | |- In (EvLib _ (OGetAttr _ ?n) _) (EvLib _ (OGetAttr _ ?n) _ :: _) =>
      left; reflexivity
  | |- In (EvLib _ (OSetAttr _ ?n _) _) (EvLib _ (OSetAttr _ ?n _) _ :: _) =>
      left; reflexivity
  | |- In (EvShell _ ?cmd _) (EvShell _ ?cmd _ :: _) =>
      left; reflexivity
  | |- In _ (_ :: _) => right; in_trace
  end.

Ltac returned_in_trace :=
  lazymatch goal with
  | |- returned_by _ _ _ _ _ => unfold returned_by; eexists; in_trace
  end.

Ltac method_ok :=
  lazymatch goal with
  | |- method_returned _ _ _ _ _ =>
      unfold method_returned; do 2 eexists; in_trace
  end.

Ltac reloaded :=
  lazymatch goal with
  | |- reloaded_and_configured _ _ =>
      unfold reloaded_and_configured; split; [returned_in_trace | method_ok]
  end.

Ltac evaluated_prefix :=
  lazymatch goal with
  | |- prefix_of ?s _ =>
      let s' := eval vm_compute in s in
      let H := fresh "H" in
      assert (H : s = s') by (vm_compute; reflexivity);
      rewrite H; clear H; eexists; reflexivity
  end.

(** X1.  Shell escapes.  Whatever the exit statuses, every run starts with
    the download and the three pip commands, in source order; the shell
    commands of a run are a beginning of the notebook's five, and all five
    when the run gets through. *)
Theorem shell_escapes_always_run World fs shell lib (w : World) :
  map ev_cmd (firstn 4 (log (run_all fs shell lib w)))
  = map Some (firstn 4 notebook_shell) /\
  prefix_of (shell_commands (log (run_all fs shell lib w))) notebook_shell /\
  (res (run_all fs shell lib w) = Ok tt ->
   shell_commands (log (run_all fs shell lib w)) = notebook_shell).
Proof.
  each_run (fun t (r : outcome unit) (_ : World) =>
              map ev_cmd (firstn 4 t) = map Some (firstn 4 notebook_shell) /\
              prefix_of (shell_commands t) notebook_shell /\
              (r = Ok tt -> shell_commands t = notebook_shell)).
  all: split; [reflexivity | split].
  all: try (intro H; first [discriminate H | reflexivity]).
  all: evaluated_prefix.
Qed.

Lemma shell_escapes_always_run_witness :
  res (demo_run Demo.never) = Ok tt /\
  shell_commands (log (demo_run Demo.never)) = notebook_shell.
Proof.
  assert (Hok : res (demo_run Demo.never) = Ok tt) by (vm_compute; reflexivity).
  split; [exact Hok |].
  apply (shell_escapes_always_run Demo.entries Demo.shell (Demo.lib Demo.never)
           Demo.start).
  exact Hok.
Defined.

Lemma strings_eqb_refl (a : list string) : strings_eqb a a = true.
Proof.
  induction a as [| x a IH]; simpl; [reflexivity |].
  now rewrite String.eqb_refl, IH.
Qed.

Lemma distinct_sound (l : list (string * string * list string)) :
  distinct l = true -> NoDup l.
Proof.
  induction l as [| x l IH]; simpl; intro H; [constructor |].
  apply andb_true_iff in H. destruct H as [Hx Hl].
  constructor; [| exact (IH Hl)].
  intro Hin. apply negb_true_iff in Hx.
  assert (Hex : existsb (signature_eqb x) l = true).
  { apply existsb_exists. exists x. split; [exact Hin |].
    unfold signature_eqb. now rewrite !String.eqb_refl, strings_eqb_refl. }
  congruence.
Qed.

(** X2.  Cells run top to bottom, once.  The cells a run goes through are
    a beginning of the notebook's code cells in source order: a cell runs
    only after all cells above it.  A run that gets through goes through
    every cell that performs an operation.  No operation is issued twice:
    the operations of a run differ in their cell, in what they call or in
    the string literals they pass, so no cell runs a second time. *)
Theorem cells_run_top_to_bottom World fs shell lib (w : World) :
  prefix_of (cells_run (log (run_all fs shell lib w))) code_cells /\
  (res (run_all fs shell lib w) = Ok tt ->
   cells_run (log (run_all fs shell lib w)) = code_cells) /\
  NoDup (map signature (log (run_all fs shell lib w))).
Proof.
  each_run (fun t (r : outcome unit) (_ : World) =>
              prefix_of (cells_run t) code_cells /\
              (r = Ok tt -> cells_run t = code_cells) /\
              NoDup (map signature t)).
  all: split; [evaluated_prefix | split].
  all: try (intro H; first [discriminate H | reflexivity]).
  all: apply distinct_sound; vm_compute; reflexivity.
Qed.

Lemma cells_run_top_to_bottom_witness :
  res (demo_run Demo.no_dataset) = Raise (VExc "NameError") /\
  prefix_of (cells_run (log (demo_run Demo.no_dataset))) code_cells /\
  res (demo_run Demo.never) = Ok tt /\
  cells_run (log (demo_run Demo.never)) = code_cells /\
  NoDup (map signature (log (demo_run Demo.never))).
Proof.
  assert (Hok : res (demo_run Demo.never) = Ok tt) by (vm_compute; reflexivity).
  split; [vm_compute; reflexivity |]. split.
  - apply (cells_run_top_to_bottom Demo.entries Demo.shell
             (Demo.lib Demo.no_dataset) Demo.start).
  - split; [exact Hok |].
    destruct (cells_run_top_to_bottom Demo.entries Demo.shell
                (Demo.lib Demo.never) Demo.start) as (_ & Hall & Honce).
    split; [exact (Hall Hok) | exact Honce].
Defined.

Lemma needs_within (e : event) (name : string) :
  needs e = Some name -> needs_at_most e = Some name.
Proof.
  destruct e as [| c o r]; [discriminate |].
  destruct o as [| | self m args kw | |]; simpl; try discriminate; auto.
  destruct self; simpl; try discriminate. auto.
Qed.

Lemma imported_In seen name : imported seen name = true -> In name seen.
Proof.
  unfold imported. intro H. apply existsb_exists in H.
  destruct H as (x & Hx & Heq). apply String.eqb_eq in Heq. now subst.
Qed.

Lemma names_bound_sound (l : list event) :
  forall seen, names_bound seen l = true ->
  forall pre e post name,
    l = pre ++ e :: post -> needs e = Some name ->
    In name seen \/ exists e', In e' pre /\ In name (import_binds e').
Proof.
  induction l as [| x l IH]; intros seen Hb pre e post name Hl Hneeds.
  - destruct pre; discriminate Hl.
  - simpl in Hb. apply andb_prop in Hb. destruct Hb as [Hx Hrest].
    destruct pre as [| y pre]; simpl in Hl; injection Hl as -> ->.
    + apply needs_within in Hneeds. rewrite Hneeds in Hx.
      left. now apply imported_In.
    + destruct (@IH _ Hrest pre e post name eq_refl Hneeds) as [Hin | (e' & He' & Hn)].
      * apply in_app_or in Hin. destruct Hin as [Hin | Hin]; [| now left].
        right. exists y. split; [now left | exact Hin].
      * right. exists e'. split; [now right | exact Hn].
Qed.

(** X3.  Nothing is used before it is imported.  In every run, a call of
    an imported name, and an operation on a path, comes after a successful
    import that binds the name ([torch] for [torch.cuda.is_available],
    [Path] for a path), also when the import is in an earlier cell. *)
Theorem imported_before_use World fs shell lib (w : World) :
  forall pre e post name,
    log (run_all fs shell lib w) = pre ++ e :: post ->
    needs e = Some name ->
    exists e', In e' pre /\ In name (import_binds e').
Proof.
  assert (Hb : names_bound [] (log (run_all fs shell lib w)) = true).
  { each_run (fun t (_ : outcome unit) (_ : World) => names_bound [] t = true).
    all: reflexivity. }
  intros pre e post name Hl Hneeds.
  destruct (@names_bound_sound _ _ Hb pre e post name Hl Hneeds) as [[] | H].
  exact H.
Qed.

Lemma imported_before_use_witness :
  exists pre e post e',
    log (demo_run Demo.never) = pre ++ e :: post /\
    needs e = Some "BertProcessing" /\
    In e' pre /\ In "BertProcessing" (import_binds e').
Proof.
  assert (Hsplit : exists pre e post,
             log (demo_run Demo.never) = pre ++ e :: post /\
             needs e = Some "BertProcessing").
  { exists (firstn 16 (log (demo_run Demo.never))),
           (nth 16 (log (demo_run Demo.never)) (EvShell "" "" 0)),
           (skipn 17 (log (demo_run Demo.never))).
    split; vm_compute; reflexivity. }
  destruct Hsplit as (pre & e & post & Hl & Hneeds).
  destruct (@imported_before_use _ Demo.entries Demo.shell (Demo.lib Demo.never)
              Demo.start pre e post _ Hl Hneeds) as (e' & Hin & Hb).
  exists pre, e, post, e'. repeat split; assumption.
Defined.

(** X4.  The tokenizer is saved whatever its training did.  Every
    [save_model] of cell c924c50f is on the object the argument-free
    [ByteLevelBPETokenizer()] returned, after the [train] call was issued
    on that object and after the cell's [mkdir], and writes to
    ["EsperBERTo"], the directory that [mkdir] names.  And every
    tokenizer-training call, returned or raised, is followed by that
    [save_model] on the same object: the training is in a [%%time] cell, so
    a tokenizer whose training raised is saved all the same. *)
Theorem tokenizer_saved_whatever_training_did World fs shell lib (w : World) :
  (forall e, In e (log (run_all fs shell lib w)) ->
             is_tokenizer_save e = true ->
             ev_args e = [VStr "EsperBERTo"] /\
             ev_kwargs e = [] /\
             returned_by (log (run_all fs shell lib w))
               "ByteLevelBPETokenizer" [] [] (ev_self e) /\
             (exists files,
                 method_issued (log (run_all fs shell lib w))
                   (ev_self e) "train" [] (train_keywords files)) /\
             exists status, In (EvShell "c924c50f" "mkdir EsperBERTo" status)
                              (log (run_all fs shell lib w))) /\
  (forall e, In e (log (run_all fs shell lib w)) ->
             is_tokenizer_train e = true ->
             method_issued (log (run_all fs shell lib w))
               (ev_self e) "save_model" [VStr "EsperBERTo"] []).
Proof.
  each_run (fun t (_ : outcome unit) (_ : World) =>
              (forall e, In e t -> is_tokenizer_save e = true ->
                ev_args e = [VStr "EsperBERTo"] /\
                ev_kwargs e = [] /\
                returned_by t "ByteLevelBPETokenizer" [] [] (ev_self e) /\
                (exists files,
                    method_issued t (ev_self e) "train" [] (train_keywords files)) /\
                exists status, In (EvShell "c924c50f" "mkdir EsperBERTo" status) t) /\
              (forall e, In e t -> is_tokenizer_train e = true ->
                method_issued t (ev_self e) "save_model" [VStr "EsperBERTo"] [])).
  all: split; picked.
  all: first [ split; [reflexivity
                      | split; [reflexivity | split; [returned_in_trace | split]]]
             | idtac ].
  all: first [ eexists; in_trace
             | unfold method_issued; do 3 eexists; in_trace
             | unfold method_issued; do 2 eexists; in_trace ].
Qed.

Lemma tokenizer_saved_whatever_training_did_witness :
  let run := demo_run (Demo.failing ["train"]) in
  let e := EvLib "762d951b"
             (OMethod (VObj 2) "train" []
                (train_keywords
                   (VList [VStr "EsperBERTo/merges.txt"; VStr "oscar.eo.txt"])))
             (Raise (VExc "RuntimeError")) in
  let e' := EvLib "c924c50f" (OMethod (VObj 2) "save_model" [VStr "EsperBERTo"] [])
              (Ok (VObj 3)) in
  In e (log run) /\
  method_issued (log run) (VObj 2) "save_model" [VStr "EsperBERTo"] [] /\
  In e' (log run) /\
  returned_by (log run) "ByteLevelBPETokenizer" [] [] (VObj 2).
Proof.
  intros run e e'.
  destruct (tokenizer_saved_whatever_training_did Demo.entries Demo.shell
              (Demo.lib (Demo.failing ["train"])) Demo.start) as [Hsave Htrain].
  assert (Hin : In e (log run)) by (vm_compute; find_in).
  assert (Hin' : In e' (log run)) by (vm_compute; find_in).
  split; [exact Hin |]. split; [exact (Htrain e Hin eq_refl) |].
  split; [exact Hin' |].
  destruct (Hsave e' Hin' eq_refl) as (_ & _ & Hnew & _). exact Hnew.
Defined.

(** X5.  The dataset and the data collator get the reloaded tokenizer.
    Every [LineByLineTextDataset(...)] and every
    [DataCollatorForLanguageModeling(...)] call passes as [tokenizer] the
    object reloaded from the two saved files, on which
    [enable_truncation(max_length=512)] has returned; not the object that
    was trained. *)
Theorem configured_tokenizer_is_passed_on World fs shell lib (w : World) :
  forall e, In e (log (run_all fs shell lib w)) ->
            takes_tokenizer e = true ->
            ev_args e = [] /\
            exists tokenizer,
              kw_lookup "tokenizer" (ev_kwargs e) = Some tokenizer /\
              reloaded_and_configured (log (run_all fs shell lib w)) tokenizer.
Proof.
  each_run (fun t (_ : outcome unit) (_ : World) =>
              forall e, In e t -> takes_tokenizer e = true ->
                ev_args e = [] /\
                exists tokenizer,
                  kw_lookup "tokenizer" (ev_kwargs e) = Some tokenizer /\
                  reloaded_and_configured t tokenizer).
  all: picked.
  all: split; [reflexivity | eexists; split; [reflexivity | reloaded]].
Qed.

Lemma configured_tokenizer_is_passed_on_witness :
  let e := EvLib "0192ab9b"
             (OCall "DataCollatorForLanguageModeling" []
                [("tokenizer", VObj 7); ("mlm", VBool true);
                 ("mlm_probability", VFloat (Decimal 15 2))])
             (Ok (VObj 25)) in
  In e (log (demo_run Demo.never)) /\
  exists tokenizer,
    kw_lookup "tokenizer" (ev_kwargs e) = Some tokenizer /\
    reloaded_and_configured (log (demo_run Demo.never)) tokenizer.
Proof.
  intro e.
  assert (Hin : In e (log (demo_run Demo.never))) by (vm_compute; find_in).
  split; [exact Hin |].
  exact (proj2 (configured_tokenizer_is_passed_on Demo.entries Demo.shell
                  (Demo.lib Demo.never) Demo.start e Hin eq_refl)).
Defined.

(** X6.  What the trainer is built from.  Every [Trainer(...)] call passes
    as [model] the object [RobertaForMaskedLM(config=...)] returned for the
    configuration [RobertaConfig(...)] returned, after [num_parameters] was
    read from it, and as [train_dataset] the object
    [LineByLineTextDataset(..., file_path="./oscar.eo.txt", block_size=128)]
    returned. *)
Theorem trainer_inputs World fs shell lib (w : World) :
  forall e, In e (log (run_all fs shell lib w)) ->
            is_call "Trainer" e = true ->
            exists model config kw_config dataset tokenizer,
              kw_lookup "model" (ev_kwargs e) = Some model /\
              returned_by (log (run_all fs shell lib w))
                "RobertaForMaskedLM" [] [("config", config)] model /\
              returned_by (log (run_all fs shell lib w))
                "RobertaConfig" [] kw_config config /\
              method_returned (log (run_all fs shell lib w))
                model "num_parameters" [] [] /\
              kw_lookup "train_dataset" (ev_kwargs e) = Some dataset /\
              returned_by (log (run_all fs shell lib w))
                "LineByLineTextDataset" []
                [("tokenizer", tokenizer); ("file_path", VStr "./oscar.eo.txt");
                 ("block_size", VInt 128)] dataset.
Proof.
  each_run (fun t (_ : outcome unit) (_ : World) =>
              forall e, In e t -> is_call "Trainer" e = true ->
                exists model config kw_config dataset tokenizer,
                  kw_lookup "model" (ev_kwargs e) = Some model /\
                  returned_by t "RobertaForMaskedLM" [] [("config", config)] model /\
                  returned_by t "RobertaConfig" [] kw_config config /\
                  method_returned t model "num_parameters" [] [] /\
                  kw_lookup "train_dataset" (ev_kwargs e) = Some dataset /\
                  returned_by t "LineByLineTextDataset" []
                    [("tokenizer", tokenizer); ("file_path", VStr "./oscar.eo.txt");
                     ("block_size", VInt 128)] dataset).
  all: picked.
  all: do 5 eexists.
  all: repeat split; first [returned_in_trace | method_ok | reflexivity].
Qed.

Lemma trainer_inputs_witness :
  let e := EvLib "de381787"
             (OCall "Trainer" []
                [("model", VObj 20); ("args", VObj 27);
                 ("data_collator", VObj 25); ("train_dataset", VObj 23)])
             (Ok (VObj 28)) in
  In e (log (demo_run Demo.never)) /\
  exists model config kw_config,
    kw_lookup "model" (ev_kwargs e) = Some model /\
    returned_by (log (demo_run Demo.never))
      "RobertaForMaskedLM" [] [("config", config)] model /\
    returned_by (log (demo_run Demo.never)) "RobertaConfig" [] kw_config config.
Proof.
  intro e.
  assert (Hin : In e (log (demo_run Demo.never))) by (vm_compute; find_in).
  split; [exact Hin |].
  destruct (trainer_inputs Demo.entries Demo.shell (Demo.lib Demo.never)
              Demo.start e Hin eq_refl)
    as (model & config & kw_config & _ & _ & Hm & Hmodel & Hconfig & _).
  exists model, config, kw_config. repeat split; assumption.
Defined.

(** X7.  The inference pipeline loads what was saved.  Every [pipeline]
    call is [pipeline("fill-mask", model="./EsperBERTo",
    tokenizer="./EsperBERTo")] and comes after [train()] was issued and
    [save_model("./EsperBERTo")] returned on one trainer, and after a
    tokenizer was saved to ["EsperBERTo"]; the two spellings name the same
    directory.  And every [trainer.train()], returned or raised, is
    followed by [save_model("./EsperBERTo")] on the same trainer: the
    training is in a [%%time] cell, so a model whose training raised is
    saved all the same. *)
Theorem pipeline_loads_saved_model World fs shell lib (w : World) :
  (forall e, In e (log (run_all fs shell lib w)) ->
             is_call "pipeline" e = true ->
             ev_args e = [VStr "fill-mask"] /\
             ev_kwargs e = [("model", VStr "./EsperBERTo");
                            ("tokenizer", VStr "./EsperBERTo")] /\
             (exists trainer,
                 method_issued (log (run_all fs shell lib w)) trainer "train" [] [] /\
                 method_returned (log (run_all fs shell lib w)) trainer "save_model"
                   [VStr "./EsperBERTo"] []) /\
             (exists tokenizer,
                 method_returned (log (run_all fs shell lib w)) tokenizer "save_model"
                   [VStr "EsperBERTo"] []) /\
             Pathlib.parts_of "./EsperBERTo" = Pathlib.parts_of "EsperBERTo") /\
  (forall e, In e (log (run_all fs shell lib w)) ->
             is_trainer_train e = true ->
             method_issued (log (run_all fs shell lib w))
               (ev_self e) "save_model" [VStr "./EsperBERTo"] []).
Proof.
  each_run (fun t (_ : outcome unit) (_ : World) =>
              (forall e, In e t -> is_call "pipeline" e = true ->
                ev_args e = [VStr "fill-mask"] /\
                ev_kwargs e = [("model", VStr "./EsperBERTo");
                               ("tokenizer", VStr "./EsperBERTo")] /\
                (exists trainer,
                    method_issued t trainer "train" [] [] /\
                    method_returned t trainer "save_model" [VStr "./EsperBERTo"] []) /\
                (exists tokenizer,
                    method_returned t tokenizer "save_model" [VStr "EsperBERTo"] []) /\
                Pathlib.parts_of "./EsperBERTo" = Pathlib.parts_of "EsperBERTo") /\
              (forall e, In e t -> is_trainer_train e = true ->
                method_issued t (ev_self e) "save_model" [VStr "./EsperBERTo"] [])).
  all: split; picked.
  all: first [ split; [reflexivity | split; [reflexivity | split; [| split]]]
             | idtac ].
  all: first [ reflexivity
             | eexists; split;
               [unfold method_issued; do 2 eexists; in_trace | method_ok]
             | eexists; method_ok
             | unfold method_issued; do 2 eexists; in_trace ].
Qed.

Lemma pipeline_loads_saved_model_witness :
  let run := demo_run (Demo.failing ["train"]) in
  let e := EvLib "feec1cb8"
             (OCall "pipeline" [VStr "fill-mask"]
                [("model", VStr "./EsperBERTo"); ("tokenizer", VStr "./EsperBERTo")])
             (Ok (VObj 30)) in
  let e' := EvLib "107a6a6c" (OMethod (VObj 27) "train" [] [])
              (Raise (VExc "RuntimeError")) in
  In e (log run) /\
  (exists trainer,
      method_issued (log run) trainer "train" [] [] /\
      method_returned (log run) trainer "save_model" [VStr "./EsperBERTo"] []) /\
  In e' (log run) /\
  method_issued (log run) (VObj 27) "save_model" [VStr "./EsperBERTo"] [].
Proof.
  intros run e e'.
  destruct (pipeline_loads_saved_model Demo.entries Demo.shell
              (Demo.lib (Demo.failing ["train"])) Demo.start) as [Hpipe Htrain].
  assert (Hin : In e (log run)) by (vm_compute; find_in).
  assert (Hin' : In e' (log run)) by (vm_compute; find_in).
  split; [exact Hin |].
  destruct (Hpipe e Hin eq_refl) as (_ & _ & Htrainer & _).
  split; [exact Htrainer |]. split; [exact Hin' |].
  exact (Htrain e' Hin' eq_refl).
Defined.

(** X8.  How cell ae4e9e92 wires the post-processor.  Every
    [BertProcessing] call gets the pairs [("</s>", i)] and [("<s>", j)], in
    that order, where [i] and [j] are whatever the two [token_to_id] calls
    on the reloaded tokenizer returned, unchecked.  Every attribute set in
    a run sets [post_processor], on the object read from [_tokenizer] of
    the reloaded tokenizer, to the object a [BertProcessing] call returned.
    Every [enable_truncation] is on the reloaded tokenizer and comes after
    the post-processor was set. *)
Theorem post_processor_wiring World fs shell lib (w : World) :
  (forall e, In e (log (run_all fs shell lib w)) ->
             is_call "BertProcessing" e = true ->
             exists tokenizer id_sep id_cls,
               ev_args e = [VTuple [VStr "</s>"; id_sep]; VTuple [VStr "<s>"; id_cls]] /\
               ev_kwargs e = [] /\
               In (EvLib "ae4e9e92" (OMethod tokenizer "token_to_id" [VStr "</s>"] [])
                     (Ok id_sep)) (log (run_all fs shell lib w)) /\
               In (EvLib "ae4e9e92" (OMethod tokenizer "token_to_id" [VStr "<s>"] [])
                     (Ok id_cls)) (log (run_all fs shell lib w)) /\
               returned_by (log (run_all fs shell lib w)) "ByteLevelBPETokenizer"
                 [VStr "./EsperBERTo/vocab.json"; VStr "./EsperBERTo/merges.txt"] []
                 tokenizer) /\
  (forall e, In e (log (run_all fs shell lib w)) ->
             is_setattr e = true ->
             ev_attr e = "post_processor" /\
             exists tokenizer args,
               In (EvLib "ae4e9e92" (OGetAttr tokenizer "_tokenizer")
                     (Ok (ev_target e))) (log (run_all fs shell lib w)) /\
               returned_by (log (run_all fs shell lib w)) "BertProcessing" args []
                 (ev_value e) /\
               returned_by (log (run_all fs shell lib w)) "ByteLevelBPETokenizer"
                 [VStr "./EsperBERTo/vocab.json"; VStr "./EsperBERTo/merges.txt"] []
                 tokenizer) /\
  (forall e, In e (log (run_all fs shell lib w)) ->
             is_method "enable_truncation" e = true ->
             ev_args e = [] /\
             ev_kwargs e = [("max_length", VInt 512)] /\
             returned_by (log (run_all fs shell lib w)) "ByteLevelBPETokenizer"
               [VStr "./EsperBERTo/vocab.json"; VStr "./EsperBERTo/merges.txt"] []
               (ev_self e) /\
             exists inner processor r,
               In (EvLib "ae4e9e92" (OSetAttr inner "post_processor" processor) (Ok r))
                 (log (run_all fs shell lib w))).
Proof.
  each_run (fun t (_ : outcome unit) (_ : World) =>
    (forall e, In e t -> is_call "BertProcessing" e = true ->
       exists tokenizer id_sep id_cls,
         ev_args e = [VTuple [VStr "</s>"; id_sep]; VTuple [VStr "<s>"; id_cls]] /\
         ev_kwargs e = [] /\
         In (EvLib "ae4e9e92" (OMethod tokenizer "token_to_id" [VStr "</s>"] [])
               (Ok id_sep)) t /\
         In (EvLib "ae4e9e92" (OMethod tokenizer "token_to_id" [VStr "<s>"] [])
               (Ok id_cls)) t /\
         returned_by t "ByteLevelBPETokenizer"
           [VStr "./EsperBERTo/vocab.json"; VStr "./EsperBERTo/merges.txt"] []
           tokenizer) /\
    (forall e, In e t -> is_setattr e = true ->
       ev_attr e = "post_processor" /\
       exists tokenizer args,
         In (EvLib "ae4e9e92" (OGetAttr tokenizer "_tokenizer") (Ok (ev_target e))) t /\
         returned_by t "BertProcessing" args [] (ev_value e) /\
         returned_by t "ByteLevelBPETokenizer"
           [VStr "./EsperBERTo/vocab.json"; VStr "./EsperBERTo/merges.txt"] []
           tokenizer) /\
    (forall e, In e t -> is_method "enable_truncation" e = true ->
       ev_args e = [] /\
       ev_kwargs e = [("max_length", VInt 512)] /\
       returned_by t "ByteLevelBPETokenizer"
         [VStr "./EsperBERTo/vocab.json"; VStr "./EsperBERTo/merges.txt"] []
         (ev_self e) /\
       exists inner processor r,
         In (EvLib "ae4e9e92" (OSetAttr inner "post_processor" processor) (Ok r)) t)).
  all: split; [| split].
  all: picked.
  all: repeat lazymatch goal with
              | |- exists _, _ => eexists
              | |- _ /\ _ => split
              end.
  all: first [reflexivity | returned_in_trace | in_trace].
Qed.

Lemma post_processor_wiring_witness :
  let e := EvLib "ae4e9e92"
             (OCall "BertProcessing"
                [VTuple [VStr "</s>"; VInt 2]; VTuple [VStr "<s>"; VInt 0]] [])
             (Ok (VObj 8)) in
  In e (log (demo_run Demo.never)) /\
  exists tokenizer,
    In (EvLib "ae4e9e92" (OMethod tokenizer "token_to_id" [VStr "</s>"] [])
          (Ok (VInt 2))) (log (demo_run Demo.never)) /\
    In (EvLib "ae4e9e92" (OMethod tokenizer "token_to_id" [VStr "<s>"] [])
          (Ok (VInt 0))) (log (demo_run Demo.never)).
Proof.
  intro e.
  assert (Hin : In e (log (demo_run Demo.never))) by (vm_compute; find_in).
  split; [exact Hin |].
  destruct (post_processor_wiring Demo.entries Demo.shell (Demo.lib Demo.never)
              Demo.start) as (Hproc & _ & _).
  destruct (Hproc e Hin eq_refl)
    as (tokenizer & id_sep & id_cls & Hargs & _ & Hsep & Hcls & _).
  injection Hargs as <- <-.
  exists tokenizer. split; assumption.
Defined.

(** X9.  The sample is encoded by the configured tokenizer.  Every
    [encode] call encodes ["Mi estas Julien."] on the reloaded tokenizer,
    after truncation was enabled on it; every read of [tokens] is on what
    the [encode] call of the same cell returned. *)
Theorem sample_encoded_after_configuration World fs shell lib (w : World) :
  (forall e, In e (log (run_all fs shell lib w)) ->
             is_method "encode" e = true ->
             ev_args e = [VStr "Mi estas Julien."] /\
             ev_kwargs e = [] /\
             reloaded_and_configured (log (run_all fs shell lib w)) (ev_self e)) /\
  (forall e, In e (log (run_all fs shell lib w)) ->
             is_getattr "tokens" e = true ->
             exists tokenizer,
               In (EvLib (ev_cell e)
                     (OMethod tokenizer "encode" [VStr "Mi estas Julien."] [])
                     (Ok (ev_target e))) (log (run_all fs shell lib w))).
Proof.
  each_run (fun t (_ : outcome unit) (_ : World) =>
    (forall e, In e t -> is_method "encode" e = true ->
       ev_args e = [VStr "Mi estas Julien."] /\
       ev_kwargs e = [] /\
       reloaded_and_configured t (ev_self e)) /\
    (forall e, In e t -> is_getattr "tokens" e = true ->
       exists tokenizer,
         In (EvLib (ev_cell e) (OMethod tokenizer "encode" [VStr "Mi estas Julien."] [])
               (Ok (ev_target e))) t)).
  all: split.
  all: picked.
  all: first [ split; [reflexivity | split; [reflexivity | reloaded]]
             | eexists; in_trace ].
Qed.

Lemma sample_encoded_after_configuration_witness :
  let e := EvLib "b122da87" (OGetAttr (VObj 13) "tokens") (Ok (VObj 14)) in
  In e (log (demo_run Demo.never)) /\
  exists tokenizer,
    In (EvLib "b122da87" (OMethod tokenizer "encode" [VStr "Mi estas Julien."] [])
          (Ok (VObj 13))) (log (demo_run Demo.never)).
Proof.
  intro e.
  assert (Hin : In e (log (demo_run Demo.never))) by (vm_compute; find_in).
  split; [exact Hin |].
  destruct (sample_encoded_after_configuration Demo.entries Demo.shell
              (Demo.lib Demo.never) Demo.start) as (_ & Htokens).
  exact (Htokens e Hin eq_refl).
Defined.

Lemma string_of_list_ascii_app (a b : list ascii) :
  string_of_list_ascii (a ++ b)
  = (string_of_list_ascii a ++ string_of_list_ascii b)%string.
Proof.
  induction a as [| c a IH]; simpl; [reflexivity | now rewrite IH].
Qed.

(** A pattern without wildcard matches itself only. *)
Lemma fnmatch_literal (pat s : list ascii) :
  Forall (fun c => c <> "*"%char /\ c <> "?"%char) pat ->
  Pathlib.fnmatch pat s = true -> s = pat.
Proof.
  intro Hpat. revert s. induction Hpat as [| c pat [Hstar Hany] _ IH]; intros s H.
  - destruct s; [reflexivity | discriminate H].
  - simpl in H.
    apply Ascii.eqb_neq in Hstar. apply Ascii.eqb_neq in Hany.
    rewrite Hstar, Hany in H.
    destruct s as [| d s]; [discriminate H |].
    apply andb_prop in H. destruct H as [Hc Hrest].
    apply Ascii.eqb_eq in Hc. subst d. f_equal. now apply IH.
Qed.

(** Only a name that ends in [.txt] matches [*.txt]. *)
Lemma star_txt_only (name : string) :
  Pathlib.name_matches "*.txt" name = true -> Pathlib.has_suffix ".txt" name.
Proof.
  unfold Pathlib.name_matches, Pathlib.has_suffix. intro H.
  assert (Hl : exists stem, list_ascii_of_string name
                            = stem ++ list_ascii_of_string ".txt").
  { revert H. generalize (list_ascii_of_string name) as s.
    change (list_ascii_of_string "*.txt")
      with ("*"%char :: list_ascii_of_string ".txt").
    assert (Hlit : Forall (fun c => c <> "*"%char /\ c <> "?"%char)
                     (list_ascii_of_string ".txt"))
      by (repeat constructor; discriminate).
    generalize dependent (list_ascii_of_string ".txt"). intros suffix Hlit.
    induction s as [| c s IH]; intro H.
    - exists []. simpl in H. rewrite orb_false_r in H.
      simpl. now apply fnmatch_literal.
    - simpl in H. apply orb_prop in H. destruct H as [H | H].
      + exists []. simpl. now apply fnmatch_literal.
      + destruct (IH H) as [stem Hstem]. exists (c :: stem). simpl.
        now rewrite Hstem. }
  destruct Hl as [stem Hstem]. exists (string_of_list_ascii stem).
  rewrite <- (string_of_list_ascii_of_string name), Hstem.
  now rewrite string_of_list_ascii_app.
Qed.

(** Only a path whose last component ends in [.txt] matches [**/*.txt]. *)
Lemma recursive_txt_only (p : Pathlib.path) :
  Pathlib.match_parts ["**"; "*.txt"] p = true -> Pathlib.is_txt p.
Proof.
  induction p as [| n p IH]; simpl; intro H; [discriminate H |].
  apply orb_prop in H. destruct H as [H | H].
  - apply andb_prop in H. destruct H as [Hn Hp].
    destruct p; [| discriminate Hp].
    exists [], n. split; [reflexivity | now apply star_txt_only].
  - destruct (IH H) as (dir & name & -> & Hname).
    exists (n :: dir), name. split; [reflexivity | exact Hname].
Qed.

Lemma glob_finds_only_txt (entries : list Pathlib.path) (p : Pathlib.path) :
  In p (Pathlib.glob entries [] "**/*.txt") -> In p entries /\ Pathlib.is_txt p.
Proof.
  unfold Pathlib.glob. intro H. apply filter_In in H. destruct H as [Hin Hm].
  split; [exact Hin |]. simpl in Hm.
  change (Pathlib.parts_of "**/*.txt") with ["**"; "*.txt"] in Hm.
  now apply recursive_txt_only.
Qed.

(** X10.  The training input is exactly the [.txt] entries.  In any world
    the list computed by source line 94 holds the string of an entry below
    the working directory if and only if the entry's name ends in [.txt]:
    every such entry at any depth, and nothing else. *)
Theorem training_files_exactly_txt World (fs : World -> list Pathlib.path) (w : World) :
  forall v, In v (training_files fs w) <->
            exists p, In p (fs w) /\ Pathlib.is_txt p /\
                      v = VStr (Pathlib.to_string p).
Proof.
  intro v. unfold training_files. rewrite in_map_iff. split.
  - intros (p & <- & Hp). apply glob_finds_only_txt in Hp.
    destruct Hp as [Hin Htxt]. exists p. auto.
  - intros (p & Hin & Htxt & ->). exists p. split; [reflexivity |].
    now apply glob_finds_every_txt.
Qed.

Section TokenizerTrainingLog.

Variable World : Type.
Variable fs : World -> list Pathlib.path.
Variable lib : op -> World -> outcome value * World.

(** Source lines 94 to 106 log the glob, the constructor and, when the
    constructor returns, the training call. *)
Lemma tokenizer_training_log c (w : World) :
  exists r w1,
    lib (OCall "ByteLevelBPETokenizer" [] []) w = (r, w1) /\
    match r with
    | Ok tokenizer =>
        exists r',
          log (tokenizer_training fs lib c w)
          = [EvLib c (OMethod (VPath []) "glob" [VStr "**/*.txt"] [])
               (Ok (VList (map VPath (Pathlib.glob (fs w) [] "**/*.txt"))));
             EvLib c (OCall "ByteLevelBPETokenizer" [] []) (Ok tokenizer);
             EvLib c (OMethod tokenizer "train" []
                        (train_keywords (VList (training_files fs w)))) r']
    | Raise x =>
        log (tokenizer_training fs lib c w)
        = [EvLib c (OMethod (VPath []) "glob" [VStr "**/*.txt"] [])
             (Ok (VList (map VPath (Pathlib.glob (fs w) [] "**/*.txt"))));
           EvLib c (OCall "ByteLevelBPETokenizer" [] []) (Raise x)]
    end.
Proof.
  apply (wp_run (tokenizer_training fs lib) c w
           (fun t (_ : outcome value) (_ : World) (_ : bindings) =>
              exists r w1,
                lib (OCall "ByteLevelBPETokenizer" [] []) w = (r, w1) /\
                match r with
                | Ok tokenizer =>
                    exists r',
                      t = [EvLib c (OMethod (VPath []) "glob" [VStr "**/*.txt"] [])
                             (Ok (VList (map VPath
                                           (Pathlib.glob (fs w) [] "**/*.txt"))));
                           EvLib c (OCall "ByteLevelBPETokenizer" [] []) (Ok tokenizer);
                           EvLib c (OMethod tokenizer "train" []
                                      (train_keywords (VList (training_files fs w))))
                             r']
                | Raise x =>
                    t = [EvLib c (OMethod (VPath []) "glob" [VStr "**/*.txt"] [])
                           (Ok (VList (map VPath
                                         (Pathlib.glob (fs w) [] "**/*.txt"))));
                         EvLib c (OCall "ByteLevelBPETokenizer" [] []) (Raise x)]
                end)).
  unfold tokenizer_training. apply wp_bind.
  unfold stmt_paths. apply wp_bind. unfold method. apply wp_perform.
  intros r w' Hglob. cbn in Hglob. injection Hglob as <- <-.
  apply wp_bind. unfold iterate. apply wp_ret.
  apply wp_str_paths. apply wp_bind. apply wp_assign.
  apply wp_bind. unfold call. apply wp_perform.
  intros r w1 Hnew. cbn in Hnew. destruct r as [tokenizer | x].
  - apply wp_bind. apply wp_assign.
    apply wp_bind. unfold stmt_train, method. apply wp_perform.
    intros r w2 _.
    destruct r as [r2 | x2]; [apply wp_ret |];
      (exists (Ok tokenizer), w1; split; [exact Hnew | eexists; reflexivity]).
  - exists (Raise x), w1. split; [exact Hnew | reflexivity].
Qed.

End TokenizerTrainingLog.

(** X11.  An empty corpus is not caught.  If no entry below the working
    directory has a name that ends in [.txt], source lines 94 to 106 still
    construct the tokenizer and, when the constructor returns, call
    [train] on it with [files=[]]: the notebook has no check for an empty
    file list. *)
Theorem empty_corpus_still_trains World fs lib c (w : World) :
  (forall p, In p (fs w) -> ~ Pathlib.is_txt p) ->
  training_files fs w = [] /\
  forall tokenizer w1,
    lib (OCall "ByteLevelBPETokenizer" [] []) w = (Ok tokenizer, w1) ->
    exists r,
      In (EvLib c (OMethod tokenizer "train" [] (train_keywords (VList []))) r)
        (log (tokenizer_training fs lib c w)).
Proof.
  intro Hnone.
  assert (Hempty : training_files fs w = []).
  { destruct (training_files fs w) as [| v l] eqn:Hfiles; [reflexivity |].
    assert (Hv : In v (training_files fs w)) by (rewrite Hfiles; now left).
    unfold training_files in Hv. apply in_map_iff in Hv.
    destruct Hv as (p & _ & Hp). apply glob_finds_only_txt in Hp.
    destruct Hp as [Hin Htxt]. now destruct (Hnone p Hin). }
  split; [exact Hempty |].
  intros tokenizer w1 Hnew.
  destruct (tokenizer_training_log fs lib c w) as (r & w2 & Hlib & Hlog).
  rewrite Hnew in Hlib. injection Hlib as <- <-.
  destruct Hlog as [r' Hlog]. exists r'. rewrite Hlog, Hempty. simpl. auto.
Qed.

Lemma training_files_exactly_txt_witness :
  In (VStr "EsperBERTo/merges.txt") (training_files Demo.entries Demo.downloaded) /\
  ~ In (VStr "EsperBERTo/vocab.json") (training_files Demo.entries Demo.downloaded).
Proof.
  split.
  - apply (training_files_exactly_txt Demo.entries Demo.downloaded).
    exists ["EsperBERTo"; "merges.txt"]. split; [simpl; auto |]. split.
    + exists ["EsperBERTo"], "merges.txt". split; [reflexivity |].
      exists "merges". reflexivity.
    + reflexivity.
  - intro H. vm_compute in H. destruct H as [H | [H | []]]; discriminate H.
Defined.

Lemma empty_corpus_still_trains_witness :
  training_files Demo.entries no_corpus = [] /\
  exists r,
    In (EvLib "762d951b" (OMethod (VObj 0) "train" [] (train_keywords (VList []))) r)
      (log (tokenizer_training Demo.entries (Demo.lib Demo.never) "762d951b" no_corpus)).
Proof.
  assert (Hnone : forall p, In p (Demo.entries no_corpus) -> ~ Pathlib.is_txt p).
  { intros p Hp Htxt. apply recursive_txt_matches in Htxt.
    simpl in Hp. destruct Hp as [<- | [<- | [<- | []]]];
      vm_compute in Htxt; discriminate Htxt. }
  destruct (empty_corpus_still_trains Demo.entries (Demo.lib Demo.never)
              "762d951b" no_corpus Hnone) as [Hempty Hcall].
  split; [exact Hempty |].
  exact (Hcall (VObj 0) {| Demo.next := 1; Demo.entries := Demo.entries no_corpus |}
           eq_refl).
Defined.

Section ConfiguredTokenizer.

Import Tokenizers.

Variable h : heap.
Variable tokenizer : value.
Variable i : nat.
Variable t : core.
Hypothesis Hcore : core_of h tokenizer = Some (i, t).

(** Cell ae4e9e92 on a tokenizer whose vocabulary lacks a special token:
    the ids are looked up, [BertProcessing] refuses the missing one, and
    the heap is as before. *)
Lemma cell_ae4e9e92_missing_token c :
  token_to_id (vocab t) "</s>" = VNone \/ token_to_id (vocab t) "<s>" = VNone ->
  wp (cell_ae4e9e92 fs lib tokenizer) c h
     (fun l r h' _ =>
        r = Raise (VExc "TypeError") /\ h' = h /\ List.length l = 3%nat).
Proof.
  intro Hmissing.
  unfold cell_ae4e9e92. apply wp_in_cell.
  apply wp_bind. unfold method. apply wp_perform. intros r h1 H.
  rewrite handle_other in H by reflexivity.
  unfold lib in H. rewrite Hcore in H. simpl in H. injection H as <- <-.
  apply wp_bind. apply wp_perform. intros r h1 H.
  rewrite handle_other in H by reflexivity.
  unfold lib in H. rewrite Hcore in H. simpl in H. injection H as <- <-.
  apply wp_bind. unfold call. apply wp_perform. intros r h1 H.
  rewrite handle_other in H by reflexivity.
  assert (Hraise : (r, h1) = type_error h).
  { rewrite <- H. destruct Hmissing as [Hsep | Hcls].
    - rewrite Hsep. reflexivity.
    - rewrite Hcls.
      destruct (token_to_id_cases (vocab t) "</s>") as [-> | [n ->]]; reflexivity. }
  injection Hraise as -> ->. repeat split.
Qed.

(** Cell ae4e9e92 on a tokenizer whose vocabulary has both special tokens:
    it runs through and leaves the model and the vocabulary as they were,
    the post-processor set and truncation at 512. *)
Lemma cell_ae4e9e92_keeps_model c sep_id cls_id :
  token_to_id (vocab t) "</s>" = VInt sep_id ->
  token_to_id (vocab t) "<s>" = VInt cls_id ->
  wp (cell_ae4e9e92 fs lib tokenizer) c h
     (fun _ r h' _ =>
        r = Ok tt /\
        exists t' p,
          core_of h' tokenizer = Some (i, t') /\
          bpe t' = bpe t /\ vocab t' = vocab t /\
          post_processor t' = Some p /\
          nth_error h' p = Some (OBertProcessing ("</s>", sep_id) ("<s>", cls_id)) /\
          truncation t' = Some 512).
Proof.
  intros Hsep Hcls.
  destruct (core_of_inv _ _ Hcore) as (a & Htok & Ha & Hi).
  unfold cell_ae4e9e92. apply wp_in_cell.
  apply wp_bind. unfold method. apply wp_perform. intros r h1 H.
  rewrite handle_other in H by reflexivity.
  unfold lib in H. rewrite Hcore in H. simpl in H. injection H as <- <-.
  apply wp_bind. apply wp_perform. intros r h1 H.
  rewrite handle_other in H by reflexivity.
  unfold lib in H. rewrite Hcore in H. simpl in H. injection H as <- <-.
  apply wp_bind. unfold call. apply wp_perform. intros r h1 H.
  rewrite handle_other in H by reflexivity.
  rewrite Hsep, Hcls in H. simpl in H. injection H as <- <-.
  set (proc := OBertProcessing ("</s>", sep_id) ("<s>", cls_id)).
  rewrite Htok in *.
  apply wp_bind. unfold getattr. apply wp_perform. intros r h1 H.
  rewrite handle_other in H by reflexivity.
  simpl in H. rewrite (nth_error_grown _ _ proc Ha) in H. simpl in H.
  injection H as <- <-.
  apply wp_bind. unfold setattr. apply wp_perform. intros r h1 H.
  rewrite handle_other in H by reflexivity.
  simpl in H. rewrite (nth_error_grown _ _ proc Hi), nth_error_new in H.
  simpl in H. injection H as <- <-.
  set (t1 := Core (vocab t) (bpe t) (Some (List.length h)) (truncation t)).
  set (h2 := set_nth i (OCore t1) (h ++ [proc])).
  assert (Hneq : i <> a) by (intros ->; congruence).
  assert (Hi_lt : (i < List.length (h ++ [proc]))%nat).
  { rewrite length_app. apply nth_error_bound in Hi. simpl. lia. }
  assert (Hcore2 : core_of h2 (VObj a) = Some (i, t1)).
  { apply core_of_intro.
    - unfold h2. rewrite nth_error_set_nth_other by exact Hneq.
      now apply nth_error_grown.
    - unfold h2. now apply nth_error_set_nth_same. }
  apply wp_bind. apply wp_perform. intros r h1 H.
  rewrite handle_other in H by reflexivity.
  unfold lib in H. rewrite Hcore2 in H. simpl in H. injection H as <- <-.
  apply wp_ret. split; [reflexivity |].
  set (t2 := Core (vocab t) (bpe t) (Some (List.length h)) (Some 512)).
  assert (Hi2_lt : (i < List.length h2)%nat).
  { unfold h2. now rewrite length_set_nth. }
  exists t2, (List.length h). repeat split.
  - apply core_of_intro.
    + rewrite nth_error_set_nth_other by exact Hneq.
      unfold h2. rewrite nth_error_set_nth_other by exact Hneq.
      now apply nth_error_grown.
    + now apply nth_error_set_nth_same.
  - assert (Hp : i <> List.length h).
    { apply nth_error_bound in Hi. lia. }
    rewrite nth_error_set_nth_other by exact Hp.
    unfold h2. rewrite nth_error_set_nth_other by exact Hp.
    apply nth_error_new.
Qed.

End ConfiguredTokenizer.

Lemma encode_tokens_wrapped (h : Tokenizers.heap) tokenizer i t p sep_id cls_id
    sequence c :
  Tokenizers.core_of h tokenizer = Some (i, t) ->
  Tokenizers.post_processor t = Some p ->
  nth_error h p
  = Some (Tokenizers.OBertProcessing ("</s>", sep_id) ("<s>", cls_id)) ->
  Tokenizers.truncation t = Some 512 ->
  wp (encode_tokens Tokenizers.fs Tokenizers.lib tokenizer sequence) c h
     (fun _ r _ _ =>
        r = Ok (VList (map VStr (wrapped (Tokenizers.bpe t sequence))))).
Proof.
  intros Hcore Hpost Hproc Htrunc.
  unfold encode_tokens.
  apply wp_bind. unfold method. apply wp_perform. intros r h1 H.
  rewrite handle_other in H by reflexivity.
  unfold Tokenizers.lib in H. rewrite Hcore in H. simpl in H. injection H as <- <-.
  apply wp_perform. intros r h1 H.
  rewrite handle_other in H by reflexivity.
  simpl in H. rewrite nth_error_new in H. simpl in H. injection H as <- <-.
  unfold Tokenizers.encode, Tokenizers.special_tokens.
  rewrite Hpost, Hproc, Htrunc. unfold wrapped, Tokenizers.truncate.
  change (Z.to_nat (512 - 2)) with 510%nat.
  simpl. rewrite !map_app, map_map. reflexivity.
Qed.

(** X12.  A vocabulary without a special token stops the configuration.
    Against the tokenizers model: when the tokenizer's vocabulary lacks
    ["</s>"] or ["<s>"], cell ae4e9e92 ends with the [TypeError] of
    [BertProcessing] after three operations, and the tokenizer is left as
    it was: no post-processor set, no truncation enabled. *)
Theorem missing_special_token_stops_configuration
    (h : Tokenizers.heap) (tokenizer : value) (i : nat) (t : Tokenizers.core)
    (c : string) :
  Tokenizers.core_of h tokenizer = Some (i, t) ->
  Tokenizers.token_to_id (Tokenizers.vocab t) "</s>" = VNone \/
  Tokenizers.token_to_id (Tokenizers.vocab t) "<s>" = VNone ->
  res (cell_ae4e9e92 Tokenizers.fs Tokenizers.lib tokenizer c h)
  = Raise (VExc "TypeError") /\
  final (cell_ae4e9e92 Tokenizers.fs Tokenizers.lib tokenizer c h) = h /\
  List.length (log (cell_ae4e9e92 Tokenizers.fs Tokenizers.lib tokenizer c h))
  = 3%nat.
Proof.
  intros Hcore Hmissing.
  exact (wp_run _ _ _ _ (@cell_ae4e9e92_missing_token h tokenizer i t Hcore c Hmissing)).
Qed.

(** X13.  What the configured tokenizer returns.  Against the tokenizers
    model: when the vocabulary has both special tokens, cell ae4e9e92 runs
    through, and afterwards [tokenizer.encode(sequence).tokens] is ["<s>"],
    the first 510 pieces the unchanged model cuts the sequence into, and
    ["</s>"].  So a sequence of at most 510 pieces is kept whole, and a
    longer one gives exactly 512 tokens. *)
Theorem configured_tokenizer_encoding
    (h : Tokenizers.heap) (tokenizer : value) (i : nat) (t : Tokenizers.core)
    (c : string) (sep_id cls_id : Z) :
  Tokenizers.core_of h tokenizer = Some (i, t) ->
  Tokenizers.token_to_id (Tokenizers.vocab t) "</s>" = VInt sep_id ->
  Tokenizers.token_to_id (Tokenizers.vocab t) "<s>" = VInt cls_id ->
  res (cell_ae4e9e92 Tokenizers.fs Tokenizers.lib tokenizer c h) = Ok tt /\
  forall sequence c',
    res (encode_tokens Tokenizers.fs Tokenizers.lib tokenizer sequence c'
           (final (cell_ae4e9e92 Tokenizers.fs Tokenizers.lib tokenizer c h)))
    = Ok (VList (map VStr (wrapped (Tokenizers.bpe t sequence)))) /\
    ((List.length (Tokenizers.bpe t sequence) <= 510)%nat ->
     wrapped (Tokenizers.bpe t sequence)
     = "<s>" :: map fst (Tokenizers.bpe t sequence) ++ ["</s>"]) /\
    ((510 <= List.length (Tokenizers.bpe t sequence))%nat ->
     List.length (wrapped (Tokenizers.bpe t sequence)) = 512%nat).
Proof.
  intros Hcore Hsep Hcls.
  pose proof (wp_run _ _ _ _ (@cell_ae4e9e92_keeps_model h tokenizer i t Hcore c
                                sep_id cls_id Hsep Hcls)) as Hcfg.
  simpl in Hcfg.
  destruct Hcfg as (Hok & t' & p & Hcore' & Hbpe & _ & Hpost & Hproc & Htrunc).
  split; [exact Hok |]. intros sequence c'. split; [| split].
  - rewrite <- Hbpe.
    exact (wp_run _ _ _ _ (@encode_tokens_wrapped _ tokenizer i t' p sep_id cls_id
                             sequence c' Hcore' Hpost Hproc Htrunc)).
  - intro Hshort. unfold wrapped. now rewrite firstn_all2.
  - intro Hlong. unfold wrapped.
    remember (firstn 510 (Tokenizers.bpe t sequence)) as kept eqn:Hkept.
    cbn [List.length]. rewrite length_app, length_map. cbn [List.length].
    subst kept. rewrite length_firstn. lia.
Qed.

Lemma missing_special_token_stops_configuration_witness :
  let h := [Tokenizers.OWrapper 1;
            Tokenizers.OCore (Tokenizers.Core [("<s>", 0)] Demo.chars None None)] in
  res (cell_ae4e9e92 Tokenizers.fs Tokenizers.lib (VObj 0) "ae4e9e92" h)
  = Raise (VExc "TypeError") /\
  final (cell_ae4e9e92 Tokenizers.fs Tokenizers.lib (VObj 0) "ae4e9e92" h) = h.
Proof.
  intro h.
  destruct (@missing_special_token_stops_configuration h (VObj 0) 1%nat
              (Tokenizers.Core [("<s>", 0)] Demo.chars None None) "ae4e9e92"
              eq_refl (or_introl eq_refl)) as (Hres & Hheap & _).
  split; assumption.
Defined.

Lemma configured_tokenizer_encoding_witness :
  res (encode_tokens Tokenizers.fs Tokenizers.lib (VObj 0) "Mi" "b122da87"
         (final (cell_ae4e9e92 Tokenizers.fs Tokenizers.lib (VObj 0) "ae4e9e92"
                   Demo.reloaded)))
  = Ok (VList [VStr "<s>"; VStr "M"; VStr "i"; VStr "</s>"]).
Proof.
  destruct (@configured_tokenizer_encoding Demo.reloaded (VObj 0) 1%nat
              (Tokenizers.Core Demo.vocab Demo.chars None None) "ae4e9e92" 2 0
              eq_refl eq_refl eq_refl) as (_ & Hencode).
  exact (proj1 (Hencode "Mi" "b122da87")).
Defined.
